(** * Habit & To-Do Tracker API: a shallow embedding of [src/api/main.py]

    The FastAPI application keeps two module-level dictionaries, [TASKS] and
    [HABITS], and exposes five handlers per resource.  The handlers are
    embedded as computations over an explicit store; the wall clock
    ([datetime.utcnow()]) and the identifier generator ([uuid.uuid4()]) are
    passed in as arguments. *)

From Stdlib Require Import ZArith List String Bool Lia.
Import ListNotations.
Open Scope string_scope.
Open Scope Z_scope.

(** ** Python values *)

(** [datetime.date] and [datetime.datetime] values, as points on a line. *)
Definition date := Z.
Definition datetime := Z.

(** A key of a JSON request body (equivalently, a field of a pydantic model
    together with its membership in [model_fields_set]): the key is absent, or
    it is given with [null] ([Given None]) or with a value. *)
Inductive field (A : Type) : Type :=
| Unset
| Given (v : option A).
Arguments Unset {A}.
Arguments Given {A} v.

(** Exceptions the handlers can end with. *)
Inductive exception : Type :=
| HTTPException (status_code : Z) (detail : string)
| RequestValidationError   (* FastAPI: body or query parameter rejected *)
| ValidationError          (* pydantic, raised by [Task] built from the record in a handler *)
| TypeError.               (* [tag in None] *)

(** The status FastAPI answers with: unhandled exceptions are a 500. *)
Definition http_status (e : exception) : Z :=
  match e with
  | HTTPException status_code _ => status_code
  | RequestValidationError => 422
  | ValidationError => 500
  | TypeError => 500
  end.

Inductive result (A : Type) : Type :=
| Returned (a : A)
| Raised (e : exception).
Arguments Returned {A} a.
Arguments Raised {A} e.

(** ** Python containers *)

(** A [dict] with [str] keys: insertion-ordered, so an association list in
    insertion order.  Keys are unique in every dictionary Python builds;
    [PyDict.wf] states it and the operations keep it. *)
Module PyDict.

Definition dict (V : Type) := list (string * V).

(** [d.get(k)] *)
Fixpoint get {V} (k : string) (d : dict V) : option V :=
  match d with
  | [] => None
  | (k', v) :: d' => if String.eqb k k' then Some v else get k d'
  end.

(** [k in d] *)
Definition contains {V} (k : string) (d : dict V) : bool :=
  match get k d with Some _ => true | None => false end.

(** [d[k] = v]: an existing key keeps its position, a new one goes last. *)
Fixpoint set {V} (k : string) (v : V) (d : dict V) : dict V :=
  match d with
  | [] => [(k, v)]
  | (k', v') :: d' =>
      if String.eqb k k' then (k, v) :: d' else (k', v') :: set k v d'
  end.

(** [del d[k]] *)
Fixpoint del {V} (k : string) (d : dict V) : dict V :=
  match d with
  | [] => []
  | (k', v') :: d' =>
      if String.eqb k k' then del k d' else (k', v') :: del k d'
  end.

(** [list(d.values())] and [list(d.keys())] *)
Definition values {V} (d : dict V) : list V := map snd d.
Definition keys {V} (d : dict V) : list string := map fst d.


End PyDict.

Import PyDict(dict).

(** [l[start:stop]] on a list, with Python's treatment of negative and
    out-of-range bounds. *)
Definition slice_bound (n i : Z) : Z :=
  if i <? 0 then Z.max 0 (i + n) else Z.min i n.

Definition py_slice {A} (l : list A) (start stop : Z) : list A :=
  let n := Z.of_nat (List.length l) in
  let s := slice_bound n start in
  let e := slice_bound n stop in
  firstn (Z.to_nat (e - s)) (skipn (Z.to_nat s) l).

(** [x or []] on a list. *)
Definition or_empty {A} (x : list A) : list A :=
  match x with [] => [] | _ :: _ => x end.

(** [tag in tags], where [tags] may be [None]. *)
Definition py_in (tag : string) (tags : option (list string)) : result bool :=
  match tags with
  | None => Raised TypeError
  | Some l => Returned (existsb (String.eqb tag) l)
  end.

(** [[t for t in items if p t]], with a test that may raise. *)
Fixpoint comprehension_if {A} (p : A -> result bool) (items : list A)
  : result (list A) :=
  match items with
  | [] => Returned []
  | t :: rest =>
      match p t with
      | Raised e => Raised e
      | Returned b =>
          match comprehension_if p rest with
          | Raised e => Raised e
          | Returned kept => Returned (if b then t :: kept else kept)
          end
      end
  end.

(** [[f t for t in items]], with a constructor that may raise. *)
Fixpoint comprehension_map {A B} (f : A -> result B) (items : list A)
  : result (list B) :=
  match items with
  | [] => Returned []
  | t :: rest =>
      match f t with
      | Raised e => Raised e
      | Returned b =>
          match comprehension_map f rest with
          | Raised e => Raised e
          | Returned bs => Returned (b :: bs)
          end
      end
  end.

(** ** Pydantic models *)

(** [Pagination]: declared in the module, used by no handler. *)
Record Pagination := { pg_page : Z; pg_size : Z }.
Definition Pagination_defaults : Pagination := {| pg_page := 1; pg_size := 20 |}.

(** The JSON object posted to [/tasks], before validation. *)
Record TaskBody := {
  b_title : field string;
  b_description : field string;
  b_due_date : field date;
  b_priority : field Z;
  b_tags : field (list string);
  b_completed : field bool }.

(** [TaskCreate(TaskBase)] *)
Record TaskCreate := {
  tc_title : string;
  tc_description : option string;
  tc_due_date : option date;
  tc_priority : option Z;
  tc_tags : list string;
  tc_completed : bool }.

(** [TaskUpdate]: every field is [Optional] with default [None]; [Unset] is a
    field that is not in [model_fields_set]. *)
Record TaskUpdate := {
  tu_title : field string;
  tu_description : field string;
  tu_due_date : field date;
  tu_priority : field Z;
  tu_tags : field (list string);
  tu_completed : field bool }.

(** [Task(TaskBase)] *)
Record Task := {
  task_id : string;
  task_title : string;
  task_description : option string;
  task_due_date : option date;
  task_priority : option Z;
  task_tags : list string;
  task_completed : bool;
  task_created_at : datetime;
  task_updated_at : datetime }.

(** The [dict] a task is stored as.  [create_task] builds it with these nine
    keys and nothing removes a key; the six keys [update_task] can assign may
    hold [None]. *)
Record task_record := {
  tr_id : string;
  tr_title : option string;
  tr_description : option string;
  tr_due_date : option date;
  tr_priority : option Z;
  tr_tags : option (list string);
  tr_completed : option bool;
  tr_created_at : datetime;
  tr_updated_at : datetime }.

(** Validation of one body key against its declaration in the model:
    [Field(...)] on a non-nullable type, [Field(default)] on a non-nullable
    type, and [Field(default)] on an [Optional] type.  No field of the models
    carries a numeric constraint. *)
Definition required {A} (f : field A) : result A :=
  match f with
  | Given (Some a) => Returned a
  | _ => Raised RequestValidationError
  end.

Definition defaulted {A} (default : A) (f : field A) : result A :=
  match f with
  | Unset => Returned default
  | Given (Some a) => Returned a
  | Given None => Raised RequestValidationError
  end.

Definition nullable {A} (default : option A) (f : field A) : option A :=
  match f with
  | Unset => default
  | Given v => v
  end.

(** Validation of a request body against [TaskCreate]. *)
Definition TaskCreate_validate (b : TaskBody) : result TaskCreate :=
  match required (b_title b) with
  | Raised e => Raised e
  | Returned title =>
  match defaulted [] (b_tags b) with
  | Raised e => Raised e
  | Returned tags =>
  match defaulted false (b_completed b) with
  | Raised e => Raised e
  | Returned completed =>
      Returned
        {| tc_title := title;
           tc_description := nullable None (b_description b);
           tc_due_date := nullable None (b_due_date b);
           tc_priority := nullable (Some 3) (b_priority b);
           tc_tags := tags;
           tc_completed := completed |}
  end end end.

(** [Task] built from the record *)
Definition Task_of_record (r : task_record) : result Task :=
  match tr_title r, tr_tags r, tr_completed r with
  | Some title, Some tags, Some completed =>
      Returned
        {| task_id := tr_id r;
           task_title := title;
           task_description := tr_description r;
           task_due_date := tr_due_date r;
           task_priority := tr_priority r;
           task_tags := tags;
           task_completed := completed;
           task_created_at := tr_created_at r;
           task_updated_at := tr_updated_at r |}
  | _, _, _ => Raised ValidationError
  end.

(** The JSON object posted to [/habits], before validation. *)
Record HabitBody := {
  hb_name : field string;
  hb_description : field string;
  hb_frequency : field string;
  hb_target : field Z;
  hb_unit : field string;
  hb_tags : field (list string) }.

(** [HabitCreate(HabitBase)] *)
Record HabitCreate := {
  hc_name : string;
  hc_description : option string;
  hc_frequency : string;
  hc_target : option Z;
  hc_unit : option string;
  hc_tags : list string }.

(** [HabitUpdate] *)
Record HabitUpdate := {
  hu_name : field string;
  hu_description : field string;
  hu_frequency : field string;
  hu_target : field Z;
  hu_unit : field string;
  hu_tags : field (list string) }.

(** [Habit(HabitBase)] *)
Record Habit := {
  habit_id : string;
  habit_name : string;
  habit_description : option string;
  habit_frequency : string;
  habit_target : option Z;
  habit_unit : option string;
  habit_tags : list string;
  habit_created_at : datetime;
  habit_updated_at : datetime }.

(** The [dict] a habit is stored as. *)
Record habit_record := {
  hr_id : string;
  hr_name : option string;
  hr_description : option string;
  hr_frequency : option string;
  hr_target : option Z;
  hr_unit : option string;
  hr_tags : option (list string);
  hr_created_at : datetime;
  hr_updated_at : datetime }.

(** Validation of a request body against [HabitCreate]. *)
Definition HabitCreate_validate (b : HabitBody) : result HabitCreate :=
  match required (hb_name b) with
  | Raised e => Raised e
  | Returned name =>
  match defaulted "daily" (hb_frequency b) with
  | Raised e => Raised e
  | Returned frequency =>
  match defaulted [] (hb_tags b) with
  | Raised e => Raised e
  | Returned tags =>
      Returned
        {| hc_name := name;
           hc_description := nullable None (hb_description b);
           hc_frequency := frequency;
           hc_target := nullable None (hb_target b);
           hc_unit := nullable None (hb_unit b);
           hc_tags := tags |}
  end end end.

(** [Habit] built from the record *)
Definition Habit_of_record (r : habit_record) : result Habit :=
  match hr_name r, hr_frequency r, hr_tags r with
  | Some name, Some frequency, Some tags =>
      Returned
        {| habit_id := hr_id r;
           habit_name := name;
           habit_description := hr_description r;
           habit_frequency := frequency;
           habit_target := hr_target r;
           habit_unit := hr_unit r;
           habit_tags := tags;
           habit_created_at := hr_created_at r;
           habit_updated_at := hr_updated_at r |}
  | _, _, _ => Raised ValidationError
  end.

(** ** [payload.model_dump(exclude_unset=True)] and [record[k] = v] *)

(** One item of the dumped dictionary: the key and the value it carries. *)
Inductive task_item : Type :=
| K_title (v : option string)
| K_description (v : option string)
| K_due_date (v : option date)
| K_priority (v : option Z)
| K_tags (v : option (list string))
| K_completed (v : option bool).

Definition dump_field {A I} (key : option A -> I) (f : field A) : list I :=
  match f with
  | Unset => []
  | Given v => [key v]
  end.

Definition TaskUpdate_model_dump (payload : TaskUpdate) : list task_item :=
  dump_field K_title (tu_title payload)
  ++ dump_field K_description (tu_description payload)
  ++ dump_field K_due_date (tu_due_date payload)
  ++ dump_field K_priority (tu_priority payload)
  ++ dump_field K_tags (tu_tags payload)
  ++ dump_field K_completed (tu_completed payload).

Definition task_setitem (record : task_record) (kv : task_item) : task_record :=
  let '{| tr_id := i; tr_title := t; tr_description := d; tr_due_date := dd;
          tr_priority := p; tr_tags := tg; tr_completed := c;
          tr_created_at := ca; tr_updated_at := ua |} := record in
  match kv with
  | K_title v => Build_task_record i v d dd p tg c ca ua
  | K_description v => Build_task_record i t v dd p tg c ca ua
  | K_due_date v => Build_task_record i t d v p tg c ca ua
  | K_priority v => Build_task_record i t d dd v tg c ca ua
  | K_tags v => Build_task_record i t d dd p v c ca ua
  | K_completed v => Build_task_record i t d dd p tg v ca ua
  end.

(** [record["updated_at"] = now] *)
Definition task_set_updated_at (record : task_record) (now : datetime)
  : task_record :=
  let '{| tr_id := i; tr_title := t; tr_description := d; tr_due_date := dd;
          tr_priority := p; tr_tags := tg; tr_completed := c;
          tr_created_at := ca; tr_updated_at := _ |} := record in
  Build_task_record i t d dd p tg c ca now.

Inductive habit_item : Type :=
| K_name (v : option string)
| K_habit_description (v : option string)
| K_frequency (v : option string)
| K_target (v : option Z)
| K_unit (v : option string)
| K_habit_tags (v : option (list string)).

Definition HabitUpdate_model_dump (payload : HabitUpdate) : list habit_item :=
  dump_field K_name (hu_name payload)
  ++ dump_field K_habit_description (hu_description payload)
  ++ dump_field K_frequency (hu_frequency payload)
  ++ dump_field K_target (hu_target payload)
  ++ dump_field K_unit (hu_unit payload)
  ++ dump_field K_habit_tags (hu_tags payload).

Definition habit_setitem (record : habit_record) (kv : habit_item)
  : habit_record :=
  let '{| hr_id := i; hr_name := n; hr_description := d; hr_frequency := f;
          hr_target := t; hr_unit := u; hr_tags := tg;
          hr_created_at := ca; hr_updated_at := ua |} := record in
  match kv with
  | K_name v => Build_habit_record i v d f t u tg ca ua
  | K_habit_description v => Build_habit_record i n v f t u tg ca ua
  | K_frequency v => Build_habit_record i n d v t u tg ca ua
  | K_target v => Build_habit_record i n d f v u tg ca ua
  | K_unit v => Build_habit_record i n d f t v tg ca ua
  | K_habit_tags v => Build_habit_record i n d f t u v ca ua
  end.

Definition habit_set_updated_at (record : habit_record) (now : datetime)
  : habit_record :=
  let '{| hr_id := i; hr_name := n; hr_description := d; hr_frequency := f;
          hr_target := t; hr_unit := u; hr_tags := tg;
          hr_created_at := ca; hr_updated_at := _ |} := record in
  Build_habit_record i n d f t u tg ca now.

(** ** The store and the handler monad *)

(** The two module-level dictionaries. *)
Record Store := {
  TASKS : dict task_record;
  HABITS : dict habit_record }.

Definition empty_store : Store := {| TASKS := []; HABITS := [] |}.

(** A handler reads and writes the store and returns or raises; what it wrote
    before raising stays written. *)
Definition M (A : Type) : Type := Store -> result A * Store.

Definition ret {A} (a : A) : M A := fun st => (Returned a, st).
Definition raise {A} (e : exception) : M A := fun st => (Raised e, st).
Definition lift {A} (r : result A) : M A := fun st => (r, st).
Definition bind {A B} (m : M A) (k : A -> M B) : M B :=
  fun st =>
    match m st with
    | (Returned a, st') => k a st'
    | (Raised e, st') => (Raised e, st')
    end.

Notation "x <- m ;; k" := (bind m (fun x => k))
  (at level 61, m at next level, right associativity).
Notation "m ;; k" := (bind m (fun _ => k))
  (at level 61, right associativity).

Definition read_TASKS : M (dict task_record) :=
  fun st => (Returned (TASKS st), st).
Definition write_TASKS (d : dict task_record) : M unit :=
  fun st => (Returned tt, {| TASKS := d; HABITS := HABITS st |}).
Definition read_HABITS : M (dict habit_record) :=
  fun st => (Returned (HABITS st), st).
Definition write_HABITS (d : dict habit_record) : M unit :=
  fun st => (Returned tt, {| TASKS := TASKS st; HABITS := d |}).

(** The outcome and the final store of a handler run. *)
Definition outcome {A} (m : M A) (st : Store) : result A := fst (m st).
Definition store_after {A} (m : M A) (st : Store) : Store := snd (m st).

(** ** Task handlers *)

(** [t.get("completed") is completed] *)
Definition py_is (v : option bool) (completed : bool) : bool :=
  match v with
  | Some b => Bool.eqb b completed
  | None => false
  end.

Definition list_tasks (page size : Z) (tag : option string)
    (completed : option bool) : M (list Task) :=
  tasks <- read_TASKS ;;
  let items := PyDict.values tasks in
  items <- lift (match tag with
                 | Some tag => comprehension_if (fun t => py_in tag (tr_tags t)) items
                 | None => Returned items
                 end) ;;
  let items := match completed with
               | Some completed =>
                   filter (fun t => py_is (tr_completed t) completed) items
               | None => items
               end in
  let start := (page - 1) * size in
  let end_ := start + size in
  lift (comprehension_map Task_of_record (py_slice items start end_)).

Definition create_task (payload : TaskCreate) (now : datetime) (uuid4 : string)
  : M Task :=
  let task_id := uuid4 in
  let record :=
    {| tr_id := task_id;
       tr_title := Some (tc_title payload);
       tr_description := tc_description payload;
       tr_due_date := tc_due_date payload;
       tr_priority :=
         Some (match tc_priority payload with Some p => p | None => 3 end);
       tr_tags := Some (or_empty (tc_tags payload));
       tr_completed := Some (tc_completed payload);
       tr_created_at := now;
       tr_updated_at := now |} in
  tasks <- read_TASKS ;;
  write_TASKS (PyDict.set task_id record tasks) ;;
  lift (Task_of_record record).

(** [if not record] holds only of a missing record: a stored one has nine
    keys. *)
Definition get_task (task_id : string) : M Task :=
  tasks <- read_TASKS ;;
  match PyDict.get task_id tasks with
  | None => raise (HTTPException 404 "Task not found")
  | Some record => lift (Task_of_record record)
  end.

(** [record] is the stored dictionary itself, so every [record[k] = v] is a
    write to the store; the store holds the merged record from the end of the
    loop on, also when building the response raises. *)
Definition update_task (task_id : string) (payload : TaskUpdate)
    (now : datetime) : M Task :=
  tasks <- read_TASKS ;;
  match PyDict.get task_id tasks with
  | None => raise (HTTPException 404 "Task not found")
  | Some record =>
      let updates := TaskUpdate_model_dump payload in
      let record := fold_left task_setitem updates record in
      let record := task_set_updated_at record now in
      write_TASKS (PyDict.set task_id record tasks) ;;
      lift (Task_of_record record)
  end.

Definition delete_task (task_id : string) : M unit :=
  tasks <- read_TASKS ;;
  if negb (PyDict.contains task_id tasks)
  then raise (HTTPException 404 "Task not found")
  else write_TASKS (PyDict.del task_id tasks).

(** ** Habit handlers *)

Definition list_habits (page size : Z) (tag : option string) : M (list Habit) :=
  habits <- read_HABITS ;;
  let items := PyDict.values habits in
  items <- lift (match tag with
                 | Some tag => comprehension_if (fun h => py_in tag (hr_tags h)) items
                 | None => Returned items
                 end) ;;
  let start := (page - 1) * size in
  let end_ := start + size in
  lift (comprehension_map Habit_of_record (py_slice items start end_)).

Definition create_habit (payload : HabitCreate) (now : datetime)
    (uuid4 : string) : M Habit :=
  let habit_id := uuid4 in
  let record :=
    {| hr_id := habit_id;
       hr_name := Some (hc_name payload);
       hr_description := hc_description payload;
       hr_frequency := Some (hc_frequency payload);
       hr_target := hc_target payload;
       hr_unit := hc_unit payload;
       hr_tags := Some (or_empty (hc_tags payload));
       hr_created_at := now;
       hr_updated_at := now |} in
  habits <- read_HABITS ;;
  write_HABITS (PyDict.set habit_id record habits) ;;
  lift (Habit_of_record record).

Definition get_habit (habit_id : string) : M Habit :=
  habits <- read_HABITS ;;
  match PyDict.get habit_id habits with
  | None => raise (HTTPException 404 "Habit not found")
  | Some record => lift (Habit_of_record record)
  end.

Definition update_habit (habit_id : string) (payload : HabitUpdate)
    (now : datetime) : M Habit :=
  habits <- read_HABITS ;;
  match PyDict.get habit_id habits with
  | None => raise (HTTPException 404 "Habit not found")
  | Some record =>
      let updates := HabitUpdate_model_dump payload in
      let record := fold_left habit_setitem updates record in
      let record := habit_set_updated_at record now in
      write_HABITS (PyDict.set habit_id record habits) ;;
      lift (Habit_of_record record)
  end.

Definition delete_habit (habit_id : string) : M unit :=
  habits <- read_HABITS ;;
  if negb (PyDict.contains habit_id habits)
  then raise (HTTPException 404 "Habit not found")
  else write_HABITS (PyDict.del habit_id habits).

(** ** Routes: what FastAPI does around a handler *)

(** [Query(default, ge=..., le=...)] on an [int] parameter: [None] is an
    omitted parameter. *)
Definition Query (default ge : Z) (le : option Z) (given : option Z)
  : result Z :=
  match given with
  | None => Returned default
  | Some v =>
      if (ge <=? v) && match le with Some hi => v <=? hi | None => true end
      then Returned v
      else Raised RequestValidationError
  end.

Inductive request : Type :=
| GET_tasks (page size : option Z) (tag : option string)
    (completed : option bool)
| POST_tasks (body : TaskBody)
| GET_task (task_id : string)
| PATCH_task (task_id : string) (payload : TaskUpdate)
| DELETE_task (task_id : string)
| GET_habits (page size : option Z) (tag : option string)
| POST_habits (body : HabitBody)
| GET_habit (habit_id : string)
| PATCH_habit (habit_id : string) (payload : HabitUpdate)
| DELETE_habit (habit_id : string).

Inductive response : Type :=
| Tasks (l : list Task)
| OneTask (t : Task)
| Habits (l : list Habit)
| OneHabit (h : Habit)
| NoContent.

Definition route_list_tasks (page size : option Z) (tag : option string)
    (completed : option bool) : M (list Task) :=
  page <- lift (Query 1 1 None page) ;;
  size <- lift (Query 50 1 (Some 200) size) ;;
  list_tasks page size tag completed.

Definition route_create_task (body : TaskBody) (now : datetime)
    (uuid4 : string) : M Task :=
  payload <- lift (TaskCreate_validate body) ;;
  create_task payload now uuid4.

Definition route_list_habits (page size : option Z) (tag : option string)
  : M (list Habit) :=
  page <- lift (Query 1 1 None page) ;;
  size <- lift (Query 50 1 (Some 200) size) ;;
  list_habits page size tag.

Definition route_create_habit (body : HabitBody) (now : datetime)
    (uuid4 : string) : M Habit :=
  payload <- lift (HabitCreate_validate body) ;;
  create_habit payload now uuid4.

(** One request, served at time [now]; [uuid4] is the identifier the
    generator would hand out. *)
Definition serve (req : request) (now : datetime) (uuid4 : string)
  : M response :=
  match req with
  | GET_tasks page size tag completed =>
      l <- route_list_tasks page size tag completed ;; ret (Tasks l)
  | POST_tasks body =>
      t <- route_create_task body now uuid4 ;; ret (OneTask t)
  | GET_task task_id => t <- get_task task_id ;; ret (OneTask t)
  | PATCH_task task_id payload =>
      t <- update_task task_id payload now ;; ret (OneTask t)
  | DELETE_task task_id => delete_task task_id ;; ret NoContent
  | GET_habits page size tag =>
      l <- route_list_habits page size tag ;; ret (Habits l)
  | POST_habits body =>
      h <- route_create_habit body now uuid4 ;; ret (OneHabit h)
  | GET_habit habit_id => h <- get_habit habit_id ;; ret (OneHabit h)
  | PATCH_habit habit_id payload =>
      h <- update_habit habit_id payload now ;; ret (OneHabit h)
  | DELETE_habit habit_id => delete_habit habit_id ;; ret NoContent
  end.

(** ** Histories *)

(** The stores the service can be in: it starts empty and serves one request
    after another, under a clock that never goes back.  The index is the
    clock's last reading. *)
Inductive reachable : datetime -> Store -> Prop :=
| reachable_start : forall t, reachable t empty_store
| reachable_serve : forall t st req now uuid4,
    reachable t st ->
    t <= now ->
    reachable now (store_after (serve req now uuid4) st).

(** The store after a list of requests, each with its clock reading and
    identifier. *)
Definition serve_all (reqs : list (request * datetime * string)) (st : Store)
  : Store :=
  fold_left (fun st '(req, now, uuid4) => store_after (serve req now uuid4) st)
    reqs st.

(** ** Statement vocabulary *)

(** What a partial update leaves under one key: the payload's value when the
    payload has the key, the prior value when it does not. *)
Definition updated_to {A} (f : field A) (prior after : option A) : Prop :=
  match f with
  | Given v => after = v
  | Unset => after = prior
  end.

(** Every stored record was created no later than it was last updated, and
    last updated no later than [t]. *)
Definition stamped_by (t : datetime) (st : Store) : Prop :=
  (forall r, In r (PyDict.values (TASKS st)) ->
     tr_created_at r <= tr_updated_at r /\ tr_updated_at r <= t)
  /\
  (forall r, In r (PyDict.values (HABITS st)) ->
     hr_created_at r <= hr_updated_at r /\ hr_updated_at r <= t).

(** The filters of a list request as the specification words them, on
    validated records: the tag given is among the record's tags, the
    completion flag given is the record's; a filter that is not given lets
    every record through. *)
Definition spec_task_passes (tag : option string) (completed : option bool)
    (t : Task) : bool :=
  match tag with
  | Some tag => existsb (String.eqb tag) (task_tags t)
  | None => true
  end
  && match completed with
     | Some completed => Bool.eqb (task_completed t) completed
     | None => true
     end.

Definition spec_habit_passes (tag : option string) (h : Habit) : bool :=
  match tag with
  | Some tag => existsb (String.eqb tag) (habit_tags h)
  | None => true
  end.

(** Every stored record builds its response model. *)
Definition all_validate (st : Store) : Prop :=
  (forall r, In r (PyDict.values (TASKS st)) ->
     exists t, Task_of_record r = Returned t)
  /\
  (forall r, In r (PyDict.values (HABITS st)) ->
     exists h, Habit_of_record r = Returned h).

(** The requests served by [update_task] and [update_habit]. *)
Definition is_patch (req : request) : bool :=
  match req with
  | PATCH_task _ _ | PATCH_habit _ _ => true
  | _ => false
  end.

(** ** Sample requests *)

Definition buy_milk : TaskBody :=
  {| b_title := Given (Some "Buy milk"); b_description := Unset;
     b_due_date := Unset; b_priority := Given (Some 1); b_tags := Unset;
     b_completed := Unset |}.

Definition stretch : HabitBody :=
  {| hb_name := Given (Some "Stretch"); hb_description := Unset;
     hb_frequency := Unset; hb_target := Given (Some 10);
     hb_unit := Given (Some "minutes"); hb_tags := Given (Some ["health"]) |}.

Definition mark_done : TaskUpdate :=
  {| tu_title := Unset; tu_description := Unset; tu_due_date := Unset;
     tu_priority := Unset; tu_tags := Unset; tu_completed := Given (Some true) |}.

Definition null_priority : TaskUpdate :=
  {| tu_title := Unset; tu_description := Unset; tu_due_date := Unset;
     tu_priority := Given None; tu_tags := Unset; tu_completed := Unset |}.

Definition null_tags : TaskUpdate :=
  {| tu_title := Unset; tu_description := Unset; tu_due_date := Unset;
     tu_priority := Unset; tu_tags := Given None; tu_completed := Unset |}.

Definition weekly : HabitUpdate :=
  {| hu_name := Unset; hu_description := Unset;
     hu_frequency := Given (Some "weekly"); hu_target := Unset;
     hu_unit := Unset; hu_tags := Unset |}.

Definition null_habit_tags : HabitUpdate :=
  {| hu_name := Unset; hu_description := Unset; hu_frequency := Unset;
     hu_target := Unset; hu_unit := Unset; hu_tags := Given None |}.

(** The store after [POST /tasks] with [buy_milk] and [POST /habits] with
    [stretch], served at times 1000 and 1001. *)
Definition one_of_each : Store :=
  serve_all [(POST_tasks buy_milk, 1000, "id-1");
             (POST_habits stretch, 1001, "id-2")] empty_store.

Definition with_priority (p : Z) : TaskBody :=
  {| b_title := Given (Some "Buy milk"); b_description := Unset;
     b_due_date := Unset; b_priority := Given (Some p); b_tags := Unset;
     b_completed := Unset |}.

Definition set_priority (p : Z) : TaskUpdate :=
  {| tu_title := Unset; tu_description := Unset; tu_due_date := Unset;
     tu_priority := Given (Some p); tu_tags := Unset; tu_completed := Unset |}.

(** Twenty-one tasks and twenty-one habits, posted one after the other. *)
Definition nth_id (n : nat) : string :=
  String (Ascii.ascii_of_nat (65 + n)) EmptyString.

Definition crowded : Store :=
  serve_all
    (flat_map
       (fun n => [(POST_tasks buy_milk, Z.of_nat n, nth_id n);
                  (POST_habits stretch, Z.of_nat n, nth_id n)])
       (seq 0 21))
    empty_store.

(** [one_of_each], then [PATCH /tasks/id-1] and [PATCH /habits/id-2], each
    with the body [{"tags": null}]. *)
Definition tags_nulled : Store :=
  serve_all [(PATCH_task "id-1" null_tags, 1002, "id-3");
             (PATCH_habit "id-2" null_habit_tags, 1003, "id-4")] one_of_each.

Definition milk_payload : TaskCreate :=
  {| tc_title := "Buy milk"; tc_description := None; tc_due_date := None;
     tc_priority := Some 1; tc_tags := []; tc_completed := false |}.

Definition stretch_payload : HabitCreate :=
  {| hc_name := "Stretch"; hc_description := None; hc_frequency := "daily";
     hc_target := Some 10; hc_unit := Some "minutes"; hc_tags := ["health"] |}.



Definition null_title : TaskUpdate :=
  {| tu_title := Given None; tu_description := Unset; tu_due_date := Unset;
     tu_priority := Unset; tu_tags := Unset; tu_completed := Unset |}.

(** ** Tactics for running handlers *)

Ltac unfold_monad :=
  unfold outcome, store_after, bind, ret, raise, lift,
    read_TASKS, write_TASKS, read_HABITS, write_HABITS in *.

Ltac unfold_handlers :=
  unfold serve, route_list_tasks, route_create_task, route_list_habits,
    route_create_habit, list_tasks, create_task, get_task, update_task,
    delete_task, list_habits, create_habit, get_habit, update_habit,
    delete_habit in *.

(** * Properties *)

(** ** Dictionaries *)

Module PyDictFacts.
Import PyDict.

Section Facts.
Context {V : Type}.
Implicit Types (d : dict V) (k : string) (v : V).

Lemma get_set_eq k v d : get k (set k v d) = Some v.
Proof.
  induction d as [|[k' v'] d IH]; simpl.
  - now rewrite String.eqb_refl.
  - destruct (String.eqb k k') eqn:E; simpl; rewrite ?String.eqb_refl, ?E; auto.
Qed.

Lemma get_set_ne k k' v d : k <> k' -> get k' (set k v d) = get k' d.
Proof.
  intros Hne. induction d as [|[k0 v0] d IH]; simpl.
  - destruct (String.eqb_spec k' k); congruence.
  - destruct (String.eqb_spec k k0) as [->|]; simpl.
    + destruct (String.eqb_spec k' k0); congruence.
    + now rewrite IH.
Qed.

Lemma get_del_eq k d : get k (del k d) = None.
Proof.
  induction d as [|[k' v'] d IH]; simpl; auto.
  destruct (String.eqb k k') eqn:E; simpl; rewrite ?E; auto.
Qed.

Lemma get_del_ne k k' d : k <> k' -> get k' (del k d) = get k' d.
Proof.
  intros Hne. induction d as [|[k0 v0] d IH]; simpl; auto.
  destruct (String.eqb_spec k k0) as [->|]; simpl.
  - destruct (String.eqb_spec k' k0); congruence.
  - now rewrite IH.
Qed.

Lemma get_In_values k v d : get k d = Some v -> In v (values d).
Proof.
  induction d as [|[k' v'] d IH]; simpl; [discriminate|].
  destruct (String.eqb k k'); [intros [= ->]; auto | auto].
Qed.

Lemma In_values_set k v d x :
  In x (values (set k v d)) -> x = v \/ In x (values d).
Proof.
  induction d as [|[k' v'] d IH]; simpl.
  - intros [->|[]]; auto.
  - destruct (String.eqb k k'); simpl.
    + intros [->|H]; auto.
    + intros [->|H]; auto. destruct (IH H); auto.
Qed.

Lemma In_values_del k d x : In x (values (del k d)) -> In x (values d).
Proof.
  induction d as [|[k' v'] d IH]; simpl; auto.
  destruct (String.eqb k k'); simpl; intuition.
Qed.

Lemma keys_set_stored k v v0 d :
  get k d = Some v0 -> keys (set k v d) = keys d.
Proof.
  induction d as [|[k' v'] d IH]; simpl; [discriminate|].
  destruct (String.eqb_spec k k') as [->|]; simpl; auto.
  intros H. now rewrite IH.
Qed.





End Facts.
End PyDictFacts.

Lemma or_empty_id {A} (x : list A) : or_empty x = x.
Proof. now destruct x. Qed.

(** ** Create, then get *)

(** C1. For every request body that passes validation, creating a task (or a
    habit) returns a record carrying the given identifier, the payload's
    fields and [created_at = updated_at = now], and a get of that identifier
    in the resulting store returns the very same record, leaving the store as
    it is. *)
Theorem create_then_get :
  (forall (body : TaskBody) (payload : TaskCreate) (now : datetime)
          (uuid4 : string) (st : Store),
      TaskCreate_validate body = Returned payload ->
      let st' := store_after (route_create_task body now uuid4) st in
      exists t : Task,
        outcome (route_create_task body now uuid4) st = Returned t /\
        get_task (task_id t) st' = (Returned t, st') /\
        task_id t = uuid4 /\
        task_created_at t = now /\
        task_updated_at t = now /\
        task_title t = tc_title payload /\
        task_description t = tc_description payload /\
        task_due_date t = tc_due_date payload /\
        task_priority t
          = Some (match tc_priority payload with Some p => p | None => 3 end) /\
        task_tags t = tc_tags payload /\
        task_completed t = tc_completed payload)
  /\
  (forall (body : HabitBody) (payload : HabitCreate) (now : datetime)
          (uuid4 : string) (st : Store),
      HabitCreate_validate body = Returned payload ->
      let st' := store_after (route_create_habit body now uuid4) st in
      exists h : Habit,
        outcome (route_create_habit body now uuid4) st = Returned h /\
        get_habit (habit_id h) st' = (Returned h, st') /\
        habit_id h = uuid4 /\
        habit_created_at h = now /\
        habit_updated_at h = now /\
        habit_name h = hc_name payload /\
        habit_description h = hc_description payload /\
        habit_frequency h = hc_frequency payload /\
        habit_target h = hc_target payload /\
        habit_unit h = hc_unit payload /\
        habit_tags h = hc_tags payload).
Proof.
  split; intros body payload now uuid4 st Hvalid st'; subst st';
    unfold_handlers; unfold_monad; rewrite Hvalid; simpl;
    eexists; (split; [reflexivity|]); simpl;
    rewrite PyDictFacts.get_set_eq; simpl; rewrite or_empty_id;
    repeat split; reflexivity.
Qed.

Lemma create_then_get_witness :
  (exists t,
      outcome (route_create_task buy_milk 1000 "id-1") empty_store = Returned t /\
      get_task (task_id t)
        (store_after (route_create_task buy_milk 1000 "id-1") empty_store)
      = (Returned t,
         store_after (route_create_task buy_milk 1000 "id-1") empty_store) /\
      task_id t = "id-1" /\ task_priority t = Some 1 /\ task_tags t = [])
  /\
  (exists h,
      outcome (route_create_habit stretch 1000 "id-2") empty_store = Returned h /\
      habit_id h = "id-2" /\ habit_frequency h = "daily").
Proof.
  split.
  - destruct (proj1 create_then_get buy_milk _ 1000 "id-1" empty_store eq_refl)
      as (t & Hc & Hg & Hid & _ & _ & _ & _ & _ & Hp & Ht & _).
    exists t. repeat split; assumption.
  - destruct (proj2 create_then_get stretch _ 1000 "id-2" empty_store eq_refl)
      as (h & Hc & _ & Hid & _ & _ & _ & _ & Hf & _).
    exists h. repeat split; assumption.
Defined.

(** ** What each handler leaves in the store *)

Lemma store_after_create_task payload now uuid4 st :
  exists record,
    store_after (create_task payload now uuid4) st
    = {| TASKS := PyDict.set uuid4 record (TASKS st); HABITS := HABITS st |}
    /\ tr_created_at record = now /\ tr_updated_at record = now
    /\ tr_priority record
       = Some (match tc_priority payload with Some p => p | None => 3 end)
    /\ outcome (create_task payload now uuid4) st = Task_of_record record.
Proof.
  unfold_handlers; unfold_monad; simpl. eexists. repeat split.
Qed.

Lemma store_after_route_create_task body now uuid4 st :
  store_after (route_create_task body now uuid4) st
  = match TaskCreate_validate body with
    | Returned payload => store_after (create_task payload now uuid4) st
    | Raised _ => st
    end.
Proof.
  unfold route_create_task; unfold_monad.
  destruct (TaskCreate_validate body); reflexivity.
Qed.

Lemma task_setitem_frame r kv :
  tr_id (task_setitem r kv) = tr_id r
  /\ tr_created_at (task_setitem r kv) = tr_created_at r
  /\ tr_updated_at (task_setitem r kv) = tr_updated_at r.
Proof. destruct r, kv; simpl; auto. Qed.

Lemma task_fold_frame items r :
  tr_id (fold_left task_setitem items r) = tr_id r
  /\ tr_created_at (fold_left task_setitem items r) = tr_created_at r
  /\ tr_updated_at (fold_left task_setitem items r) = tr_updated_at r.
Proof.
  revert r. induction items as [|kv items IH]; intros r; simpl; auto.
  destruct (IH (task_setitem r kv)) as (-> & -> & ->).
  apply task_setitem_frame.
Qed.

Lemma task_set_updated_at_frame r now :
  tr_id (task_set_updated_at r now) = tr_id r
  /\ tr_created_at (task_set_updated_at r now) = tr_created_at r
  /\ tr_updated_at (task_set_updated_at r now) = now.
Proof. destruct r; simpl; auto. Qed.

Lemma store_after_update_task task_id payload now st :
  store_after (update_task task_id payload now) st
  = match PyDict.get task_id (TASKS st) with
    | None => st
    | Some record =>
        {| TASKS :=
             PyDict.set task_id
               (task_set_updated_at
                  (fold_left task_setitem (TaskUpdate_model_dump payload) record)
                  now)
               (TASKS st);
           HABITS := HABITS st |}
    end.
Proof.
  unfold_handlers; unfold_monad; simpl.
  destruct (PyDict.get task_id (TASKS st)); reflexivity.
Qed.

Lemma store_after_delete_task task_id st :
  store_after (delete_task task_id) st
  = if PyDict.contains task_id (TASKS st)
    then {| TASKS := PyDict.del task_id (TASKS st); HABITS := HABITS st |}
    else st.
Proof.
  unfold_handlers; unfold_monad; simpl.
  destruct (PyDict.contains task_id (TASKS st)); reflexivity.
Qed.

Lemma store_after_list_tasks page size tag completed st :
  store_after (list_tasks page size tag completed) st = st.
Proof.
  unfold_handlers; unfold_monad; simpl.
  destruct tag as [tag|]; simpl.
  - destruct (comprehension_if _ _); reflexivity.
  - reflexivity.
Qed.

Lemma store_after_route_list_tasks page size tag completed st :
  store_after (route_list_tasks page size tag completed) st = st.
Proof.
  unfold route_list_tasks. unfold store_after, bind, lift at 1 2.
  destruct (Query 1 1 None page); [|reflexivity].
  destruct (Query 50 1 (Some 200) size); [|reflexivity].
  apply store_after_list_tasks.
Qed.

Lemma store_after_get_task task_id st :
  store_after (get_task task_id) st = st.
Proof.
  unfold_handlers; unfold_monad; simpl.
  destruct (PyDict.get task_id (TASKS st)); reflexivity.
Qed.

Lemma store_after_create_habit payload now uuid4 st :
  exists record,
    store_after (create_habit payload now uuid4) st
    = {| TASKS := TASKS st; HABITS := PyDict.set uuid4 record (HABITS st) |}
    /\ hr_created_at record = now /\ hr_updated_at record = now
    /\ outcome (create_habit payload now uuid4) st = Habit_of_record record.
Proof.
  unfold_handlers; unfold_monad; simpl. eexists. repeat split.
Qed.

Lemma store_after_route_create_habit body now uuid4 st :
  store_after (route_create_habit body now uuid4) st
  = match HabitCreate_validate body with
    | Returned payload => store_after (create_habit payload now uuid4) st
    | Raised _ => st
    end.
Proof.
  unfold route_create_habit; unfold_monad.
  destruct (HabitCreate_validate body); reflexivity.
Qed.

Lemma habit_setitem_frame r kv :
  hr_id (habit_setitem r kv) = hr_id r
  /\ hr_created_at (habit_setitem r kv) = hr_created_at r
  /\ hr_updated_at (habit_setitem r kv) = hr_updated_at r.
Proof. destruct r, kv; simpl; auto. Qed.

Lemma habit_fold_frame items r :
  hr_id (fold_left habit_setitem items r) = hr_id r
  /\ hr_created_at (fold_left habit_setitem items r) = hr_created_at r
  /\ hr_updated_at (fold_left habit_setitem items r) = hr_updated_at r.
Proof.
  revert r. induction items as [|kv items IH]; intros r; simpl; auto.
  destruct (IH (habit_setitem r kv)) as (-> & -> & ->).
  apply habit_setitem_frame.
Qed.

Lemma habit_set_updated_at_frame r now :
  hr_id (habit_set_updated_at r now) = hr_id r
  /\ hr_created_at (habit_set_updated_at r now) = hr_created_at r
  /\ hr_updated_at (habit_set_updated_at r now) = now.
Proof. destruct r; simpl; auto. Qed.

Lemma store_after_update_habit habit_id payload now st :
  store_after (update_habit habit_id payload now) st
  = match PyDict.get habit_id (HABITS st) with
    | None => st
    | Some record =>
        {| TASKS := TASKS st;
           HABITS :=
             PyDict.set habit_id
               (habit_set_updated_at
                  (fold_left habit_setitem (HabitUpdate_model_dump payload) record)
                  now)
               (HABITS st) |}
    end.
Proof.
  unfold_handlers; unfold_monad; simpl.
  destruct (PyDict.get habit_id (HABITS st)); reflexivity.
Qed.

Lemma store_after_delete_habit habit_id st :
  store_after (delete_habit habit_id) st
  = if PyDict.contains habit_id (HABITS st)
    then {| TASKS := TASKS st; HABITS := PyDict.del habit_id (HABITS st) |}
    else st.
Proof.
  unfold_handlers; unfold_monad; simpl.
  destruct (PyDict.contains habit_id (HABITS st)); reflexivity.
Qed.

Lemma store_after_list_habits page size tag st :
  store_after (list_habits page size tag) st = st.
Proof.
  unfold_handlers; unfold_monad; simpl.
  destruct tag as [tag|]; simpl.
  - destruct (comprehension_if _ _); reflexivity.
  - reflexivity.
Qed.

Lemma store_after_route_list_habits page size tag st :
  store_after (route_list_habits page size tag) st = st.
Proof.
  unfold route_list_habits. unfold store_after, bind, lift at 1 2.
  destruct (Query 1 1 None page); [|reflexivity].
  destruct (Query 50 1 (Some 200) size); [|reflexivity].
  apply store_after_list_habits.
Qed.

Lemma store_after_get_habit habit_id st :
  store_after (get_habit habit_id) st = st.
Proof.
  unfold_handlers; unfold_monad; simpl.
  destruct (PyDict.get habit_id (HABITS st)); reflexivity.
Qed.

(** Wrapping the handler's value into a [response] does not touch the store. *)
Lemma store_after_bind_ret {A B} (m : M A) (f : A -> B) st :
  store_after (x <- m ;; ret (f x)) st = store_after m st.
Proof.
  unfold store_after, bind, ret. destruct (m st) as [[a|e] st']; reflexivity.
Qed.

Lemma store_after_serve req now uuid4 st :
  store_after (serve req now uuid4) st
  = match req with
    | GET_tasks page size tag completed =>
        store_after (route_list_tasks page size tag completed) st
    | POST_tasks body => store_after (route_create_task body now uuid4) st
    | GET_task task_id => store_after (get_task task_id) st
    | PATCH_task task_id payload =>
        store_after (update_task task_id payload now) st
    | DELETE_task task_id => store_after (delete_task task_id) st
    | GET_habits page size tag =>
        store_after (route_list_habits page size tag) st
    | POST_habits body => store_after (route_create_habit body now uuid4) st
    | GET_habit habit_id => store_after (get_habit habit_id) st
    | PATCH_habit habit_id payload =>
        store_after (update_habit habit_id payload now) st
    | DELETE_habit habit_id => store_after (delete_habit habit_id) st
    end.
Proof.
  destruct req; unfold serve;
    try apply (store_after_bind_ret _ _ st);
    apply (store_after_bind_ret _ (fun _ => NoContent) st).
Qed.

(** ** Partial update *)

Lemma task_merge payload r :
  let r' := fold_left task_setitem (TaskUpdate_model_dump payload) r in
  updated_to (tu_title payload) (tr_title r) (tr_title r')
  /\ updated_to (tu_description payload) (tr_description r) (tr_description r')
  /\ updated_to (tu_due_date payload) (tr_due_date r) (tr_due_date r')
  /\ updated_to (tu_priority payload) (tr_priority r) (tr_priority r')
  /\ updated_to (tu_tags payload) (tr_tags r) (tr_tags r')
  /\ updated_to (tu_completed payload) (tr_completed r) (tr_completed r').
Proof.
  destruct r, payload as [[|?] [|?] [|?] [|?] [|?] [|?]]; simpl;
    repeat split; reflexivity.
Qed.

Lemma habit_merge payload r :
  let r' := fold_left habit_setitem (HabitUpdate_model_dump payload) r in
  updated_to (hu_name payload) (hr_name r) (hr_name r')
  /\ updated_to (hu_description payload) (hr_description r) (hr_description r')
  /\ updated_to (hu_frequency payload) (hr_frequency r) (hr_frequency r')
  /\ updated_to (hu_target payload) (hr_target r) (hr_target r')
  /\ updated_to (hu_unit payload) (hr_unit r) (hr_unit r')
  /\ updated_to (hu_tags payload) (hr_tags r) (hr_tags r').
Proof.
  destruct r, payload as [[|?] [|?] [|?] [|?] [|?] [|?]]; simpl;
    repeat split; reflexivity.
Qed.

Lemma task_set_updated_at_fields r now :
  let r' := task_set_updated_at r now in
  tr_title r' = tr_title r /\ tr_description r' = tr_description r
  /\ tr_due_date r' = tr_due_date r /\ tr_priority r' = tr_priority r
  /\ tr_tags r' = tr_tags r /\ tr_completed r' = tr_completed r.
Proof. destruct r; simpl; repeat split. Qed.

Lemma habit_set_updated_at_fields r now :
  let r' := habit_set_updated_at r now in
  hr_name r' = hr_name r /\ hr_description r' = hr_description r
  /\ hr_frequency r' = hr_frequency r /\ hr_target r' = hr_target r
  /\ hr_unit r' = hr_unit r /\ hr_tags r' = hr_tags r.
Proof. destruct r; simpl; repeat split. Qed.

(** C2. Updating a stored task (or habit) leaves under its identifier a record
    in which every key the payload gives holds the payload's value (be it
    null), every key the payload omits holds its prior value, [id] and
    [created_at] are the prior ones and [updated_at] is the time of the
    update; the other records, the order of the store and the other store are
    as before, and what the handler answers is built from that record. *)
Theorem update_changes_only_given_fields :
  (forall (task_id : string) (record : task_record) (payload : TaskUpdate)
          (now : datetime) (st : Store),
      PyDict.get task_id (TASKS st) = Some record ->
      let st' := store_after (update_task task_id payload now) st in
      exists record' : task_record,
        PyDict.get task_id (TASKS st') = Some record' /\
        updated_to (tu_title payload) (tr_title record) (tr_title record') /\
        updated_to (tu_description payload)
          (tr_description record) (tr_description record') /\
        updated_to (tu_due_date payload)
          (tr_due_date record) (tr_due_date record') /\
        updated_to (tu_priority payload)
          (tr_priority record) (tr_priority record') /\
        updated_to (tu_tags payload) (tr_tags record) (tr_tags record') /\
        updated_to (tu_completed payload)
          (tr_completed record) (tr_completed record') /\
        tr_id record' = tr_id record /\
        tr_created_at record' = tr_created_at record /\
        tr_updated_at record' = now /\
        (forall other, other <> task_id ->
           PyDict.get other (TASKS st') = PyDict.get other (TASKS st)) /\
        PyDict.keys (TASKS st') = PyDict.keys (TASKS st) /\
        HABITS st' = HABITS st /\
        outcome (update_task task_id payload now) st = Task_of_record record')
  /\
  (forall (habit_id : string) (record : habit_record) (payload : HabitUpdate)
          (now : datetime) (st : Store),
      PyDict.get habit_id (HABITS st) = Some record ->
      let st' := store_after (update_habit habit_id payload now) st in
      exists record' : habit_record,
        PyDict.get habit_id (HABITS st') = Some record' /\
        updated_to (hu_name payload) (hr_name record) (hr_name record') /\
        updated_to (hu_description payload)
          (hr_description record) (hr_description record') /\
        updated_to (hu_frequency payload)
          (hr_frequency record) (hr_frequency record') /\
        updated_to (hu_target payload) (hr_target record) (hr_target record') /\
        updated_to (hu_unit payload) (hr_unit record) (hr_unit record') /\
        updated_to (hu_tags payload) (hr_tags record) (hr_tags record') /\
        hr_id record' = hr_id record /\
        hr_created_at record' = hr_created_at record /\
        hr_updated_at record' = now /\
        (forall other, other <> habit_id ->
           PyDict.get other (HABITS st') = PyDict.get other (HABITS st)) /\
        PyDict.keys (HABITS st') = PyDict.keys (HABITS st) /\
        TASKS st' = TASKS st /\
        outcome (update_habit habit_id payload now) st = Habit_of_record record').
Proof.
  split.
  - intros task_id record payload now st Hget st'. subst st'.
    rewrite store_after_update_task, Hget. simpl.
    set (merged := fold_left task_setitem (TaskUpdate_model_dump payload) record).
    exists (task_set_updated_at merged now).
    destruct (task_merge payload record) as (H1 & H2 & H3 & H4 & H5 & H6).
    destruct (task_set_updated_at_fields merged now)
      as (E1 & E2 & E3 & E4 & E5 & E6).
    destruct (task_set_updated_at_frame merged now) as (F1 & F2 & F3).
    destruct (task_fold_frame (TaskUpdate_model_dump payload) record)
      as (G1 & G2 & _).
    fold merged in H1, H2, H3, H4, H5, H6, G1, G2.
    rewrite E1, E2, E3, E4, E5, E6, F1, F2, F3, G1, G2.
    repeat split; try assumption.
    + apply PyDictFacts.get_set_eq.
    + intros other Hne. apply PyDictFacts.get_set_ne. congruence.
    + eapply PyDictFacts.keys_set_stored; eassumption.
    + unfold_handlers; unfold_monad; simpl. rewrite Hget. simpl.
      fold merged. destruct (Task_of_record _); reflexivity.
  - intros habit_id record payload now st Hget st'. subst st'.
    rewrite store_after_update_habit, Hget. simpl.
    set (merged := fold_left habit_setitem (HabitUpdate_model_dump payload) record).
    exists (habit_set_updated_at merged now).
    destruct (habit_merge payload record) as (H1 & H2 & H3 & H4 & H5 & H6).
    destruct (habit_set_updated_at_fields merged now)
      as (E1 & E2 & E3 & E4 & E5 & E6).
    destruct (habit_set_updated_at_frame merged now) as (F1 & F2 & F3).
    destruct (habit_fold_frame (HabitUpdate_model_dump payload) record)
      as (G1 & G2 & _).
    fold merged in H1, H2, H3, H4, H5, H6, G1, G2.
    rewrite E1, E2, E3, E4, E5, E6, F1, F2, F3, G1, G2.
    repeat split; try assumption.
    + apply PyDictFacts.get_set_eq.
    + intros other Hne. apply PyDictFacts.get_set_ne. congruence.
    + eapply PyDictFacts.keys_set_stored; eassumption.
    + unfold_handlers; unfold_monad; simpl. rewrite Hget. simpl.
      fold merged. destruct (Habit_of_record _); reflexivity.
Qed.

Lemma update_changes_only_given_fields_witness :
  (exists record',
      PyDict.get "id-1"
        (TASKS (store_after (update_task "id-1" mark_done 2000) one_of_each))
      = Some record'
      /\ tr_completed record' = Some true
      /\ tr_title record' = Some "Buy milk"
      /\ tr_created_at record' = 1000
      /\ tr_updated_at record' = 2000)
  /\
  (exists record',
      PyDict.get "id-2"
        (HABITS (store_after (update_habit "id-2" weekly 2000) one_of_each))
      = Some record'
      /\ hr_frequency record' = Some "weekly"
      /\ hr_name record' = Some "Stretch"
      /\ hr_created_at record' = 1001).
Proof.
  split.
  - destruct (proj1 update_changes_only_given_fields "id-1" _ mark_done 2000
                one_of_each eq_refl)
      as (r & Hget & Ht & _ & _ & _ & _ & Hc & _ & Hca & Hua & _).
    exists r. simpl in Ht, Hc, Hca. repeat split; assumption.
  - destruct (proj2 update_changes_only_given_fields "id-2" _ weekly 2000
                one_of_each eq_refl)
      as (r & Hget & Hn & _ & Hf & _ & _ & _ & _ & Hca & _).
    exists r. simpl in Hn, Hf, Hca. repeat split; assumption.
Defined.

(** ** Delete *)

(** C7. Deleting an identifier that is not stored raises the 404
    [HTTPException] and changes nothing; deleting a stored one returns
    nothing, removes that record and no other, and afterwards both a get and
    a second delete of the identifier raise the 404 [HTTPException]. *)
Theorem delete_then_not_found :
  (forall (task_id : string) (st : Store),
      (PyDict.get task_id (TASKS st) = None ->
       delete_task task_id st
       = (Raised (HTTPException 404 "Task not found"), st))
      /\
      (forall record, PyDict.get task_id (TASKS st) = Some record ->
       let st' := store_after (delete_task task_id) st in
       outcome (delete_task task_id) st = Returned tt /\
       PyDict.get task_id (TASKS st') = None /\
       (forall other, other <> task_id ->
          PyDict.get other (TASKS st') = PyDict.get other (TASKS st)) /\
       HABITS st' = HABITS st /\
       get_task task_id st'
       = (Raised (HTTPException 404 "Task not found"), st') /\
       delete_task task_id st'
       = (Raised (HTTPException 404 "Task not found"), st')))
  /\
  (forall (habit_id : string) (st : Store),
      (PyDict.get habit_id (HABITS st) = None ->
       delete_habit habit_id st
       = (Raised (HTTPException 404 "Habit not found"), st))
      /\
      (forall record, PyDict.get habit_id (HABITS st) = Some record ->
       let st' := store_after (delete_habit habit_id) st in
       outcome (delete_habit habit_id) st = Returned tt /\
       PyDict.get habit_id (HABITS st') = None /\
       (forall other, other <> habit_id ->
          PyDict.get other (HABITS st') = PyDict.get other (HABITS st)) /\
       TASKS st' = TASKS st /\
       get_habit habit_id st'
       = (Raised (HTTPException 404 "Habit not found"), st') /\
       delete_habit habit_id st'
       = (Raised (HTTPException 404 "Habit not found"), st'))).
Proof.
  split.
  - intros task_id st. split.
    + intros Hget. unfold_handlers; unfold_monad; unfold PyDict.contains.
      now rewrite Hget.
    + intros record Hget st'. subst st'.
      assert (Hin : PyDict.contains task_id (TASKS st) = true)
        by (unfold PyDict.contains; now rewrite Hget).
      rewrite store_after_delete_task, Hin.
      repeat split.
      * unfold_handlers; unfold_monad. now rewrite Hin.
      * apply PyDictFacts.get_del_eq.
      * intros other Hne. apply PyDictFacts.get_del_ne. congruence.
      * unfold_handlers; unfold_monad; simpl.
        now rewrite PyDictFacts.get_del_eq.
      * unfold_handlers; unfold_monad; unfold PyDict.contains; simpl.
        now rewrite PyDictFacts.get_del_eq.
  - intros habit_id st. split.
    + intros Hget. unfold_handlers; unfold_monad; unfold PyDict.contains.
      now rewrite Hget.
    + intros record Hget st'. subst st'.
      assert (Hin : PyDict.contains habit_id (HABITS st) = true)
        by (unfold PyDict.contains; now rewrite Hget).
      rewrite store_after_delete_habit, Hin.
      repeat split.
      * unfold_handlers; unfold_monad. now rewrite Hin.
      * apply PyDictFacts.get_del_eq.
      * intros other Hne. apply PyDictFacts.get_del_ne. congruence.
      * unfold_handlers; unfold_monad; simpl.
        now rewrite PyDictFacts.get_del_eq.
      * unfold_handlers; unfold_monad; unfold PyDict.contains; simpl.
        now rewrite PyDictFacts.get_del_eq.
Qed.

Lemma delete_then_not_found_witness :
  (delete_task "id-9" one_of_each
   = (Raised (HTTPException 404 "Task not found"), one_of_each)
   /\ outcome (delete_task "id-1") one_of_each = Returned tt
   /\ outcome (get_task "id-1") (store_after (delete_task "id-1") one_of_each)
      = Raised (HTTPException 404 "Task not found")
   /\ outcome (delete_task "id-1") (store_after (delete_task "id-1") one_of_each)
      = Raised (HTTPException 404 "Task not found"))
  /\
  (delete_habit "id-9" one_of_each
   = (Raised (HTTPException 404 "Habit not found"), one_of_each)
   /\ outcome (delete_habit "id-2") one_of_each = Returned tt
   /\ outcome (get_habit "id-2") (store_after (delete_habit "id-2") one_of_each)
      = Raised (HTTPException 404 "Habit not found")).
Proof.
  split.
  - destruct (proj1 delete_then_not_found "id-9" one_of_each) as [Habsent _].
    destruct (proj1 delete_then_not_found "id-1" one_of_each) as [_ Hstored].
    destruct (Hstored _ eq_refl) as (Hd & _ & _ & _ & Hg & Hd2).
    split; [apply Habsent; reflexivity|].
    split; [exact Hd|].
    split; unfold outcome; [now rewrite Hg | now rewrite Hd2].
  - destruct (proj2 delete_then_not_found "id-9" one_of_each) as [Habsent _].
    destruct (proj2 delete_then_not_found "id-2" one_of_each) as [_ Hstored].
    destruct (Hstored _ eq_refl) as (Hd & _ & _ & _ & Hg & _).
    split; [apply Habsent; reflexivity|].
    split; [exact Hd|].
    unfold outcome; now rewrite Hg.
Defined.

(** ** Timestamps *)

Lemma stamped_by_mono t t' st : t <= t' -> stamped_by t st -> stamped_by t' st.
Proof.
  intros Hle [HT HH]. split; intros r Hin.
  - destruct (HT r Hin). lia.
  - destruct (HH r Hin). lia.
Qed.

Lemma stamped_by_serve t st req now uuid4 :
  stamped_by t st -> t <= now ->
  stamped_by now (store_after (serve req now uuid4) st).
Proof.
  intros Hinv Hle.
  pose proof (stamped_by_mono _ _ _ Hle Hinv) as Hnow.
  rewrite store_after_serve.
  destruct req as [page size tag completed|body|tid|tid payload|tid
                  |page size tag|body|hid|hid payload|hid].
  - now rewrite store_after_route_list_tasks.
  - rewrite store_after_route_create_task.
    destruct (TaskCreate_validate body) as [payload|]; [|assumption].
    destruct (store_after_create_task payload now uuid4 st)
      as (record & -> & Hc & Hu & _).
    destruct Hnow as [HT HH]. split; simpl; [|assumption].
    intros r Hin. apply PyDictFacts.In_values_set in Hin.
    destruct Hin as [->|Hin]; [lia | auto].
  - now rewrite store_after_get_task.
  - rewrite store_after_update_task.
    destruct (PyDict.get tid (TASKS st)) as [record|] eqn:Hget;
      [|assumption].
    destruct Hinv as [HT _]. destruct Hnow as [HT' HH']. split; simpl;
      [|assumption].
    intros r Hin. apply PyDictFacts.In_values_set in Hin.
    destruct Hin as [->|Hin]; [|auto].
    destruct (task_set_updated_at_frame
                (fold_left task_setitem (TaskUpdate_model_dump payload) record)
                now) as (_ & -> & ->).
    destruct (task_fold_frame (TaskUpdate_model_dump payload) record)
      as (_ & -> & _).
    destruct (HT record (PyDictFacts.get_In_values _ _ _ Hget)). lia.
  - rewrite store_after_delete_task.
    destruct (PyDict.contains tid (TASKS st)); [|assumption].
    destruct Hnow as [HT HH]. split; simpl; [|assumption].
    intros r Hin. apply PyDictFacts.In_values_del in Hin. auto.
  - now rewrite store_after_route_list_habits.
  - rewrite store_after_route_create_habit.
    destruct (HabitCreate_validate body) as [payload|]; [|assumption].
    destruct (store_after_create_habit payload now uuid4 st)
      as (record & -> & Hc & Hu & _).
    destruct Hnow as [HT HH]. split; simpl; [assumption|].
    intros r Hin. apply PyDictFacts.In_values_set in Hin.
    destruct Hin as [->|Hin]; [lia | auto].
  - now rewrite store_after_get_habit.
  - rewrite store_after_update_habit.
    destruct (PyDict.get hid (HABITS st)) as [record|] eqn:Hget;
      [|assumption].
    destruct Hinv as [_ HH]. destruct Hnow as [HT' HH']. split; simpl;
      [assumption|].
    intros r Hin. apply PyDictFacts.In_values_set in Hin.
    destruct Hin as [->|Hin]; [|auto].
    destruct (habit_set_updated_at_frame
                (fold_left habit_setitem (HabitUpdate_model_dump payload) record)
                now) as (_ & -> & ->).
    destruct (habit_fold_frame (HabitUpdate_model_dump payload) record)
      as (_ & -> & _).
    destruct (HH record (PyDictFacts.get_In_values _ _ _ Hget)). lia.
  - rewrite store_after_delete_habit.
    destruct (PyDict.contains hid (HABITS st)); [|assumption].
    destruct Hnow as [HT HH]. split; simpl; [assumption|].
    intros r Hin. apply PyDictFacts.In_values_del in Hin. auto.
Qed.

Lemma reachable_stamped_by t st : reachable t st -> stamped_by t st.
Proof.
  induction 1 as [t|t st req now uuid4 Hreach IH Hle].
  - split; intros r [].
  - eapply stamped_by_serve; eassumption.
Qed.


(** C8. In every store reached by serving requests under a clock that never
    goes back, each task and each habit has [created_at <= updated_at];
    a create stores a record with [created_at = updated_at], and an update
    served no earlier than the record's last update keeps
    [created_at <= updated_at]. *)
Theorem updated_at_not_before_created_at :
  (forall (t : datetime) (st : Store),
      reachable t st ->
      (forall r, In r (PyDict.values (TASKS st)) ->
         tr_created_at r <= tr_updated_at r) /\
      (forall r, In r (PyDict.values (HABITS st)) ->
         hr_created_at r <= hr_updated_at r))
  /\
  (forall (payload : TaskCreate) (now : datetime) (uuid4 : string) (st : Store),
      exists r,
        PyDict.get uuid4 (TASKS (store_after (create_task payload now uuid4) st))
        = Some r /\
        tr_created_at r = now /\ tr_updated_at r = now)
  /\
  (forall (payload : HabitCreate) (now : datetime) (uuid4 : string) (st : Store),
      exists r,
        PyDict.get uuid4 (HABITS (store_after (create_habit payload now uuid4) st))
        = Some r /\
        hr_created_at r = now /\ hr_updated_at r = now)
  /\
  (forall (task_id : string) (r : task_record) (payload : TaskUpdate)
          (now : datetime) (st : Store),
      PyDict.get task_id (TASKS st) = Some r ->
      tr_created_at r <= tr_updated_at r ->
      tr_updated_at r <= now ->
      exists r',
        PyDict.get task_id (TASKS (store_after (update_task task_id payload now) st))
        = Some r' /\
        tr_created_at r' = tr_created_at r /\
        tr_updated_at r' = now /\
        tr_created_at r' <= tr_updated_at r')
  /\
  (forall (habit_id : string) (r : habit_record) (payload : HabitUpdate)
          (now : datetime) (st : Store),
      PyDict.get habit_id (HABITS st) = Some r ->
      hr_created_at r <= hr_updated_at r ->
      hr_updated_at r <= now ->
      exists r',
        PyDict.get habit_id
          (HABITS (store_after (update_habit habit_id payload now) st))
        = Some r' /\
        hr_created_at r' = hr_created_at r /\
        hr_updated_at r' = now /\
        hr_created_at r' <= hr_updated_at r').
Proof.
  split; [|split; [|split; [|split]]].
  - intros t st Hreach.
    destruct (reachable_stamped_by t st Hreach) as [HT HH].
    split; intros r Hin; [apply (HT r Hin) | apply (HH r Hin)].
  - intros payload now uuid4 st.
    destruct (store_after_create_task payload now uuid4 st)
      as (record & -> & Hc & Hu & _).
    exists record. simpl. now rewrite PyDictFacts.get_set_eq.
  - intros payload now uuid4 st.
    destruct (store_after_create_habit payload now uuid4 st)
      as (record & -> & Hc & Hu & _).
    exists record. simpl. now rewrite PyDictFacts.get_set_eq.
  - intros task_id r payload now st Hget Hord Hle.
    rewrite store_after_update_task, Hget. simpl.
    eexists. split; [apply PyDictFacts.get_set_eq|].
    destruct (task_set_updated_at_frame
                (fold_left task_setitem (TaskUpdate_model_dump payload) r) now)
      as (_ & -> & ->).
    destruct (task_fold_frame (TaskUpdate_model_dump payload) r) as (_ & -> & _).
    repeat split; lia.
  - intros habit_id r payload now st Hget Hord Hle.
    rewrite store_after_update_habit, Hget. simpl.
    eexists. split; [apply PyDictFacts.get_set_eq|].
    destruct (habit_set_updated_at_frame
                (fold_left habit_setitem (HabitUpdate_model_dump payload) r) now)
      as (_ & -> & ->).
    destruct (habit_fold_frame (HabitUpdate_model_dump payload) r)
      as (_ & -> & _).
    repeat split; lia.
Qed.

Lemma one_of_each_reachable : reachable 1001 one_of_each.
Proof.
  apply (reachable_serve 1000 _ (POST_habits stretch) 1001 "id-2"); [|lia].
  apply (reachable_serve 0 _ (POST_tasks buy_milk) 1000 "id-1"); [|lia].
  apply reachable_start.
Defined.

Lemma updated_at_not_before_created_at_witness :
  reachable 1001 one_of_each
  /\ (forall r, In r (PyDict.values (TASKS one_of_each)) ->
        tr_created_at r <= tr_updated_at r)
  /\ (forall r, In r (PyDict.values (HABITS one_of_each)) ->
        hr_created_at r <= hr_updated_at r)
  /\ (exists r',
        PyDict.get "id-1"
          (TASKS (store_after (update_task "id-1" mark_done 2000) one_of_each))
        = Some r'
        /\ tr_created_at r' <= tr_updated_at r')
  /\ (exists r',
        PyDict.get "id-2"
          (HABITS (store_after (update_habit "id-2" weekly 2000) one_of_each))
        = Some r'
        /\ hr_created_at r' <= hr_updated_at r').
Proof.
  destruct updated_at_not_before_created_at as (Hreach & _ & _ & Hut & Huh).
  destruct (Hreach 1001 one_of_each one_of_each_reachable) as [HT HH].
  split; [exact one_of_each_reachable|].
  split; [exact HT|].
  split; [exact HH|].
  split.
  - destruct (Hut "id-1" _ mark_done 2000 one_of_each eq_refl) as (r' & Hg & _ & _ & Hord).
    + simpl. lia.
    + simpl. lia.
    + exists r'. split; assumption.
  - destruct (Huh "id-2" _ weekly 2000 one_of_each eq_refl) as (r' & Hg & _ & _ & Hord).
    + simpl. lia.
    + simpl. lia.
    + exists r'. split; assumption.
Defined.

(** ** Priority defaults *)

Lemma TaskCreate_validate_priority body payload :
  TaskCreate_validate body = Returned payload ->
  tc_priority payload = nullable (Some 3) (b_priority body).
Proof.
  unfold TaskCreate_validate.
  destruct (required (b_title body)); [|discriminate].
  destruct (defaulted [] (b_tags body)); [|discriminate].
  destruct (defaulted false (b_completed body)); [|discriminate].
  now intros [= <-].
Qed.

(** C9. A task created from a valid body is returned and stored with a
    priority that is not null, and that priority is 3 when the body omits
    [priority] or gives it as null.  A partial update that gives [priority]
    as null stores null under [priority], and a task it returns has a null
    priority. *)
Theorem create_defaults_null_priority_update_stores_it :
  (forall (body : TaskBody) (payload : TaskCreate) (now : datetime)
          (uuid4 : string) (st : Store),
      TaskCreate_validate body = Returned payload ->
      let st' := store_after (route_create_task body now uuid4) st in
      exists (t : Task) (record : task_record) (p : Z),
        outcome (route_create_task body now uuid4) st = Returned t /\
        PyDict.get uuid4 (TASKS st') = Some record /\
        task_priority t = Some p /\
        tr_priority record = Some p /\
        (b_priority body = Unset \/ b_priority body = Given None -> p = 3))
  /\
  (forall (task_id : string) (record : task_record) (payload : TaskUpdate)
          (now : datetime) (st : Store),
      PyDict.get task_id (TASKS st) = Some record ->
      tu_priority payload = Given None ->
      let st' := store_after (update_task task_id payload now) st in
      exists record' : task_record,
        PyDict.get task_id (TASKS st') = Some record' /\
        tr_priority record' = None /\
        (forall t, outcome (update_task task_id payload now) st = Returned t ->
           task_priority t = None)).
Proof.
  split.
  - intros body payload now uuid4 st Hvalid st'. subst st'.
    pose proof (TaskCreate_validate_priority _ _ Hvalid) as Hprio.
    unfold_handlers; unfold_monad. rewrite Hvalid. simpl.
    rewrite PyDictFacts.get_set_eq.
    do 3 eexists. repeat split.
    rewrite Hprio. now intros [-> | ->].
  - intros tid record payload now st Hget Hnull st'. subst st'.
    rewrite store_after_update_task, Hget. simpl.
    set (merged := fold_left task_setitem (TaskUpdate_model_dump payload) record).
    assert (Hp : tr_priority (task_set_updated_at merged now) = None).
    { destruct (task_set_updated_at_fields merged now) as (_ & _ & _ & -> & _).
      destruct (task_merge payload record) as (_ & _ & _ & Hm & _).
      rewrite Hnull in Hm. exact Hm. }
    exists (task_set_updated_at merged now).
    split; [apply PyDictFacts.get_set_eq|]. split; [exact Hp|].
    intros t. unfold_handlers; unfold_monad. rewrite Hget. simpl.
    fold merged. set (r' := task_set_updated_at merged now) in *.
    unfold Task_of_record.
    destruct (tr_title r'), (tr_tags r'), (tr_completed r'); try discriminate.
    intros [= <-]. exact Hp.
Qed.

Lemma create_defaults_null_priority_update_stores_it_witness :
  (exists t,
      outcome
        (route_create_task
           {| b_title := Given (Some "Call mum"); b_description := Unset;
              b_due_date := Unset; b_priority := Given None; b_tags := Unset;
              b_completed := Unset |} 1000 "id-3") empty_store
      = Returned t
      /\ task_priority t = Some 3)
  /\
  (exists record',
      PyDict.get "id-1"
        (TASKS (store_after (update_task "id-1" null_priority 2000) one_of_each))
      = Some record'
      /\ tr_priority record' = None).
Proof.
  destruct create_defaults_null_priority_update_stores_it as [Hcreate Hupdate].
  split.
  - destruct (Hcreate
                {| b_title := Given (Some "Call mum"); b_description := Unset;
                   b_due_date := Unset; b_priority := Given None;
                   b_tags := Unset; b_completed := Unset |}
                _ 1000 "id-3" empty_store eq_refl)
      as (t & record & p & Hout & _ & Hp & _ & H3).
    exists t. split; [exact Hout|].
    rewrite Hp. f_equal. apply H3. right. reflexivity.
  - destruct (Hupdate "id-1" _ null_priority 2000 one_of_each eq_refl eq_refl)
      as (record' & Hg & Hp & _).
    exists record'. split; assumption.
Defined.

(** ** The two stores are independent *)

(** C10. Serving a list or a get request of either resource leaves the whole
    store as it was; serving any other task request leaves [HABITS] as it
    was, and serving any other habit request leaves [TASKS] as it was. *)
Theorem stores_are_independent :
  forall (req : request) (now : datetime) (uuid4 : string) (st : Store),
    let st' := store_after (serve req now uuid4) st in
    match req with
    | GET_tasks _ _ _ _ | GET_task _ | GET_habits _ _ _ | GET_habit _ =>
        st' = st
    | POST_tasks _ | PATCH_task _ _ | DELETE_task _ =>
        HABITS st' = HABITS st
    | POST_habits _ | PATCH_habit _ _ | DELETE_habit _ =>
        TASKS st' = TASKS st
    end.
Proof.
  intros req now uuid4 st st'. subst st'. rewrite store_after_serve.
  destruct req as [page size tag completed|body|tid|tid payload|tid
                  |page size tag|body|hid|hid payload|hid].
  - apply store_after_route_list_tasks.
  - rewrite store_after_route_create_task.
    destruct (TaskCreate_validate body) as [payload|]; [|reflexivity].
    now destruct (store_after_create_task payload now uuid4 st)
      as (record & -> & _).
  - apply store_after_get_task.
  - rewrite store_after_update_task.
    now destruct (PyDict.get tid (TASKS st)).
  - rewrite store_after_delete_task.
    now destruct (PyDict.contains tid (TASKS st)).
  - apply store_after_route_list_habits.
  - rewrite store_after_route_create_habit.
    destruct (HabitCreate_validate body) as [payload|]; [|reflexivity].
    now destruct (store_after_create_habit payload now uuid4 st)
      as (record & -> & _).
  - apply store_after_get_habit.
  - rewrite store_after_update_habit.
    now destruct (PyDict.get hid (HABITS st)).
  - rewrite store_after_delete_habit.
    now destruct (PyDict.contains hid (HABITS st)).
Qed.

(** ** Priority range *)

(** C3. The code does not reject a priority outside 1..5: for every integer
    [p], a create with priority [p] returns and stores a task of priority
    [p], and an update with priority [p] stores [p] under [priority]; at
    [p = 7] and [p = 0] the store ends up holding a priority outside 1..5. *)
Theorem any_priority_is_accepted_and_stored :
  (forall (p : Z) (now : datetime) (uuid4 : string) (st : Store),
      let st' := store_after (route_create_task (with_priority p) now uuid4) st in
      exists t record,
        outcome (route_create_task (with_priority p) now uuid4) st = Returned t /\
        task_priority t = Some p /\
        PyDict.get uuid4 (TASKS st') = Some record /\
        tr_priority record = Some p)
  /\
  (forall (p : Z) (now : datetime),
      let st' := store_after (update_task "id-1" (set_priority p) now) one_of_each in
      exists t record,
        outcome (update_task "id-1" (set_priority p) now) one_of_each = Returned t /\
        task_priority t = Some p /\
        PyDict.get "id-1" (TASKS st') = Some record /\
        tr_priority record = Some p)
  /\
  (exists record,
      PyDict.get "id-7"
        (TASKS (store_after (route_create_task (with_priority 7) 1000 "id-7")
                  empty_store))
      = Some record
      /\ tr_priority record = Some 7)
  /\
  (exists record,
      PyDict.get "id-1"
        (TASKS (store_after (update_task "id-1" (set_priority 0) 2000) one_of_each))
      = Some record
      /\ tr_priority record = Some 0).
Proof.
  split; [|split; [|split]].
  - intros p now uuid4 st st'. subst st'.
    unfold_handlers; unfold_monad; simpl.
    rewrite PyDictFacts.get_set_eq. do 2 eexists. repeat split.
  - intros p now st'. subst st'. do 2 eexists. repeat split.
  - eexists. split; reflexivity.
  - eexists. split; reflexivity.
Qed.

(** ** Default page size *)

Lemma Query_default default ge le : Query default ge le None = Returned default.
Proof. reflexivity. Qed.

(** C4, as stated, fails: it is not the case that one of the two list routes
    answers a request without [size] as it answers [size=50] and the other as
    it answers [size=20].  On the store [crowded], with twenty-one records of
    each kind, neither route answers as for [size=20]. *)
Lemma default_page_size_counterexample :
  ~ (((forall st page tag completed,
         outcome (route_list_tasks page None tag completed) st
         = outcome (route_list_tasks page (Some 50) tag completed) st)
      /\
      (forall st page tag,
         outcome (route_list_habits page None tag) st
         = outcome (route_list_habits page (Some 20) tag) st))
     \/
     ((forall st page tag completed,
         outcome (route_list_tasks page None tag completed) st
         = outcome (route_list_tasks page (Some 20) tag completed) st)
      /\
      (forall st page tag,
         outcome (route_list_habits page None tag) st
         = outcome (route_list_habits page (Some 50) tag) st))).
Proof.
  intros [[_ H] | [H _]].
  - specialize (H crowded None None). vm_compute in H. discriminate H.
  - specialize (H crowded None None None). vm_compute in H. discriminate H.
Qed.

(** C4, amended. Both list routes answer a request without [size] exactly as
    they answer the same request with [size=50]. *)
Theorem default_page_size_is_50_for_both :
  (forall (page : option Z) (tag : option string) (completed : option bool)
          (st : Store),
      route_list_tasks page None tag completed st
      = route_list_tasks page (Some 50) tag completed st)
  /\
  (forall (page : option Z) (tag : option string) (st : Store),
      route_list_habits page None tag st
      = route_list_habits page (Some 50) tag st).
Proof.
  split; intros; unfold route_list_tasks, route_list_habits;
    rewrite Query_default; reflexivity.
Qed.

(** ** Listing after a null has been stored under [tags] *)

Lemma tags_nulled_reachable : reachable 1003 tags_nulled.
Proof.
  apply (reachable_serve 1002 _ (PATCH_habit "id-2" null_habit_tags) 1003 "id-4");
    [|lia].
  apply (reachable_serve 1001 _ (PATCH_task "id-1" null_tags) 1002 "id-3");
    [|lia].
  exact one_of_each_reachable.
Qed.

(** C5. Listing does not return the matching records on every store: on the
    reachable store [tags_nulled] it raises.  The two updates that lead there
    answer with an unhandled [ValidationError] yet leave null under [tags];
    from then on a list request with a tag filter raises [TypeError], and one
    without any filter raises [ValidationError], for tasks and for habits
    alike. *)
Theorem list_raises_once_tags_is_null :
  reachable 1003 tags_nulled
  /\ outcome (serve (PATCH_task "id-1" null_tags) 1002 "id-3") one_of_each
     = Raised ValidationError
  /\ (exists record,
        PyDict.get "id-1" (TASKS tags_nulled) = Some record
        /\ tr_tags record = None)
  /\ (exists record,
        PyDict.get "id-2" (HABITS tags_nulled) = Some record
        /\ hr_tags record = None)
  /\ outcome (route_list_tasks None None (Some "home") None) tags_nulled
     = Raised TypeError
  /\ outcome (route_list_tasks None None None None) tags_nulled
     = Raised ValidationError
  /\ outcome (route_list_habits None None (Some "health")) tags_nulled
     = Raised TypeError
  /\ outcome (route_list_habits None None None) tags_nulled
     = Raised ValidationError.
Proof.
  split; [exact tags_nulled_reachable|].
  split; [reflexivity|].
  split; [eexists; split; reflexivity|].
  split; [eexists; split; reflexivity|].
  repeat split.
Qed.

(** C6. A page past the end can fail: on the reachable store [tags_nulled] no
    task and no habit carries the tag asked for, so page 2 of size 50 is past
    the end, and both list routes raise [TypeError], answered as a 500,
    instead of returning the empty sequence. *)
Theorem page_past_the_end_raises_once_tags_is_null :
  reachable 1003 tags_nulled
  /\ outcome (route_list_tasks (Some 2) (Some 50) (Some "home") None) tags_nulled
     = Raised TypeError
  /\ outcome (route_list_habits (Some 2) (Some 50) (Some "health")) tags_nulled
     = Raised TypeError
  /\ http_status TypeError = 500.
Proof.
  split; [exact tags_nulled_reachable|].
  repeat split.
Qed.

(** ** Listing a store in which every record validates *)

Section Comprehensions.
Context {A B : Type}.
Variable R : A -> B -> Prop.

Lemma comprehension_map_Forall2 (f : A -> result B) items out :
  comprehension_map f items = Returned out
  <-> Forall2 (fun a b => f a = Returned b) items out.
Proof.
  revert out. induction items as [|a items IH]; intros out; simpl.
  - split.
    + intros [= <-]. constructor.
    + intros H. now inversion H.
  - destruct (f a) as [b|e] eqn:Hf.
    + destruct (comprehension_map f items) as [bs|e] eqn:Hrest.
      * split.
        -- intros [= <-]. constructor; [assumption | now apply IH].
        -- intros H. inversion H as [|? b' ? bs' Hb Hbs]; subst.
           apply IH in Hbs. congruence.
      * split; [discriminate|].
        intros H. inversion H as [|? b' ? bs' Hb Hbs]; subst.
        apply IH in Hbs. discriminate.
    + split; [discriminate|].
      intros H. inversion H; subst. congruence.
Qed.

Lemma comprehension_if_Forall2 (p : A -> result bool) (q : B -> bool)
    items out :
  (forall a b, R a b -> p a = Returned (q b)) ->
  Forall2 R items out ->
  exists kept,
    comprehension_if p items = Returned kept
    /\ Forall2 R kept (filter q out).
Proof.
  intros Hpq. induction 1 as [|a b items out Hab Hrest [kept [Hk HR]]]; simpl.
  - exists []. split; [reflexivity | constructor].
  - rewrite (Hpq a b Hab), Hk. destruct (q b).
    + exists (a :: kept). split; [reflexivity | now constructor].
    + exists kept. split; [reflexivity | assumption].
Qed.

Lemma filter_Forall2 (p : A -> bool) (q : B -> bool) items out :
  (forall a b, R a b -> p a = q b) ->
  Forall2 R items out ->
  Forall2 R (filter p items) (filter q out).
Proof.
  intros Hpq. induction 1 as [|a b items out Hab Hrest IH]; simpl.
  - constructor.
  - rewrite (Hpq a b Hab). destruct (q b); [now constructor | assumption].
Qed.

Lemma firstn_Forall2 n items out :
  Forall2 R items out -> Forall2 R (firstn n items) (firstn n out).
Proof.
  intros H. revert n. induction H; intros [|n]; simpl; constructor; auto.
Qed.

Lemma skipn_Forall2 n items out :
  Forall2 R items out -> Forall2 R (skipn n items) (skipn n out).
Proof.
  intros H. revert n. induction H; intros [|n]; simpl; auto.
Qed.

Lemma py_slice_Forall2 items out start stop :
  Forall2 R items out ->
  Forall2 R (py_slice items start stop) (py_slice out start stop).
Proof.
  intros H. unfold py_slice. rewrite (Forall2_length H).
  now apply firstn_Forall2, skipn_Forall2.
Qed.

End Comprehensions.

Lemma filter_filter {A} (p q : A -> bool) (l : list A) :
  filter q (filter p l) = filter (fun x => p x && q x) l.
Proof.
  induction l as [|x l IH]; simpl; auto.
  destruct (p x); simpl; [destruct (q x); now rewrite IH | assumption].
Qed.

(** A slice that starts at a non-negative index and spans [size] places. *)
Lemma py_slice_window {A} (l : list A) (start size : Z) :
  0 <= start -> 0 <= size ->
  py_slice l start (start + size)
  = firstn (Z.to_nat size) (skipn (Z.to_nat start) l).
Proof.
  intros Hstart Hsize. unfold py_slice, slice_bound.
  destruct (Z.ltb_spec start 0); [lia|].
  destruct (Z.ltb_spec (start + size) 0); [lia|].
  set (n := List.length l).
  destruct (Z_le_gt_dec (Z.of_nat n) start) as [Hout|Hin].
  - rewrite (skipn_all2 (n := Z.to_nat start)) by (fold n; lia).
    rewrite (skipn_all2 (n := Z.to_nat (Z.min start (Z.of_nat n))))
      by (fold n; lia).
    now rewrite !firstn_nil.
  - replace (Z.min start (Z.of_nat n)) with start by lia.
    destruct (Z_le_gt_dec (start + size) (Z.of_nat n)).
    + do 2 f_equal. lia.
    + rewrite !firstn_all2; auto; rewrite length_skipn; fold n; lia.
Qed.

Lemma nth_error_py_slice {A} (l : list A) (start size : Z) (i : nat) :
  0 <= start -> 0 <= size ->
  nth_error (py_slice l start (start + size)) i
  = if Z.of_nat i <? size
    then nth_error l (Z.to_nat start + i)
    else None.
Proof.
  intros Hstart Hsize. rewrite py_slice_window by assumption.
  rewrite nth_error_firstn, nth_error_skipn.
  destruct (Nat.ltb_spec i (Z.to_nat size)), (Z.ltb_spec (Z.of_nat i) size);
    auto; lia.
Qed.

Lemma Task_of_record_passes tag completed r t :
  Task_of_record r = Returned t ->
  match tag with
  | Some tag => py_in tag (tr_tags r)
  | None => Returned true
  end
  = Returned match tag with
             | Some tag => existsb (String.eqb tag) (task_tags t)
             | None => true
             end
  /\ match completed with
     | Some completed => py_is (tr_completed r) completed
     | None => true
     end
     = match completed with
       | Some completed => Bool.eqb (task_completed t) completed
       | None => true
       end.
Proof.
  unfold Task_of_record.
  destruct (tr_title r), (tr_tags r), (tr_completed r); try discriminate.
  intros [= <-]. simpl. split; [now destruct tag | now destruct completed].
Qed.

Lemma Habit_of_record_passes tag r h :
  Habit_of_record r = Returned h ->
  match tag with
  | Some tag => py_in tag (hr_tags r)
  | None => Returned true
  end
  = Returned (spec_habit_passes tag h).
Proof.
  unfold Habit_of_record, spec_habit_passes.
  destruct (hr_name r), (hr_frequency r), (hr_tags r); try discriminate.
  intros [= <-]. simpl. now destruct tag.
Qed.

(** When every stored task validates, [list_tasks] returns, without touching
    the store, the validated records that pass the filters, in store order,
    from index [(page-1)*size] on and [size] of them at most. *)
Lemma list_tasks_when_all_validate page size tag completed st all :
  1 <= page -> 1 <= size ->
  comprehension_map Task_of_record (PyDict.values (TASKS st)) = Returned all ->
  exists page_items,
    list_tasks page size tag completed st = (Returned page_items, st)
    /\ page_items
       = py_slice (filter (spec_task_passes tag completed) all)
           ((page - 1) * size) ((page - 1) * size + size)
    /\ forall i : nat,
         nth_error page_items i
         = if Z.of_nat i <? size
           then nth_error (filter (spec_task_passes tag completed) all)
                  (Z.to_nat ((page - 1) * size) + i)
           else None.
Proof.
  intros Hpage Hsize Hall.
  apply comprehension_map_Forall2 in Hall.
  set (R := fun r t => Task_of_record r = Returned t) in Hall.
  set (by_tag := fun t : Task =>
                   match tag with
                   | Some tag => existsb (String.eqb tag) (task_tags t)
                   | None => true
                   end).
  set (by_completed := fun t : Task =>
                         match completed with
                         | Some completed => Bool.eqb (task_completed t) completed
                         | None => true
                         end).
  assert (Htag : exists kept,
             match tag with
             | Some tag =>
                 comprehension_if (fun t => py_in tag (tr_tags t))
                   (PyDict.values (TASKS st))
             | None => Returned (PyDict.values (TASKS st))
             end = Returned kept
             /\ Forall2 R kept (filter by_tag all)).
  { destruct tag as [tag|].
    - apply comprehension_if_Forall2; [|assumption].
      intros r t Hrt.
      exact (proj1 (Task_of_record_passes (Some tag) None r t Hrt)).
    - exists (PyDict.values (TASKS st)). split; [reflexivity|].
      subst by_tag. simpl.
      replace (filter (fun _ => true) all) with all; [assumption|].
      clear. induction all; simpl; congruence. }
  destruct Htag as (kept & Hkept & HR).
  assert (Hcompleted :
            Forall2 R
              match completed with
              | Some completed =>
                  filter (fun t => py_is (tr_completed t) completed) kept
              | None => kept
              end
              (filter by_completed (filter by_tag all))).
  { destruct completed as [completed|].
    - apply filter_Forall2; [|assumption].
      intros r t Hrt.
      exact (proj2 (Task_of_record_passes None (Some completed) r t Hrt)).
    - subst by_completed. simpl.
      replace (filter (fun _ => true) (filter by_tag all))
        with (filter by_tag all); [assumption|].
      clear. induction (filter by_tag all); simpl; congruence. }
  rewrite filter_filter in Hcompleted.
  change (fun x => by_tag x && by_completed x)
    with (spec_task_passes tag completed) in Hcompleted.
  apply (py_slice_Forall2 R _ _ ((page - 1) * size) ((page - 1) * size + size))
    in Hcompleted.
  apply comprehension_map_Forall2 in Hcompleted.
  eexists. split; [|split; [reflexivity|]].
  - unfold list_tasks; unfold_monad. rewrite Hkept. simpl.
    rewrite Hcompleted. reflexivity.
  - intros i. apply nth_error_py_slice; nia.
Qed.

Lemma list_habits_when_all_validate page size tag st all :
  1 <= page -> 1 <= size ->
  comprehension_map Habit_of_record (PyDict.values (HABITS st)) = Returned all ->
  exists page_items,
    list_habits page size tag st = (Returned page_items, st)
    /\ page_items
       = py_slice (filter (spec_habit_passes tag) all)
           ((page - 1) * size) ((page - 1) * size + size)
    /\ forall i : nat,
         nth_error page_items i
         = if Z.of_nat i <? size
           then nth_error (filter (spec_habit_passes tag) all)
                  (Z.to_nat ((page - 1) * size) + i)
           else None.
Proof.
  intros Hpage Hsize Hall.
  apply comprehension_map_Forall2 in Hall.
  set (R := fun r h => Habit_of_record r = Returned h) in Hall.
  assert (Htag : exists kept,
             match tag with
             | Some tag =>
                 comprehension_if (fun h => py_in tag (hr_tags h))
                   (PyDict.values (HABITS st))
             | None => Returned (PyDict.values (HABITS st))
             end = Returned kept
             /\ Forall2 R kept (filter (spec_habit_passes tag) all)).
  { destruct tag as [tag|].
    - apply comprehension_if_Forall2; [|assumption].
      intros r h Hrh. exact (Habit_of_record_passes (Some tag) r h Hrh).
    - exists (PyDict.values (HABITS st)). split; [reflexivity|].
      unfold spec_habit_passes.
      replace (filter (fun _ => true) all) with all; [assumption|].
      clear. induction all; simpl; congruence. }
  destruct Htag as (kept & Hkept & HR).
  apply (py_slice_Forall2 R _ _ ((page - 1) * size) ((page - 1) * size + size))
    in HR.
  apply comprehension_map_Forall2 in HR.
  eexists. split; [|split; [reflexivity|]].
  - unfold list_habits; unfold_monad. rewrite Hkept. simpl.
    rewrite HR. reflexivity.
  - intros i. apply nth_error_py_slice; nia.
Qed.


Lemma py_slice_past_the_end {A} (l : list A) (start size : Z) :
  0 <= size -> Z.of_nat (List.length l) <= start ->
  py_slice l start (start + size) = [].
Proof.
  intros Hsize Hpast. rewrite py_slice_window by lia.
  rewrite skipn_all2 by lia. apply firstn_nil.
Qed.

(** When every stored record validates, a page that starts at or after the
    number of records passing the filters is the empty list. *)
Lemma list_tasks_past_the_end_when_all_validate page size tag completed st all :
  1 <= page -> 1 <= size ->
  comprehension_map Task_of_record (PyDict.values (TASKS st)) = Returned all ->
  Z.of_nat (List.length (filter (spec_task_passes tag completed) all))
  <= (page - 1) * size ->
  list_tasks page size tag completed st = (Returned [], st).
Proof.
  intros Hpage Hsize Hall Hpast.
  destruct (list_tasks_when_all_validate page size tag completed st all
              Hpage Hsize Hall) as (items & -> & -> & _).
  now rewrite py_slice_past_the_end by lia.
Qed.

Lemma list_habits_past_the_end_when_all_validate page size tag st all :
  1 <= page -> 1 <= size ->
  comprehension_map Habit_of_record (PyDict.values (HABITS st)) = Returned all ->
  Z.of_nat (List.length (filter (spec_habit_passes tag) all))
  <= (page - 1) * size ->
  list_habits page size tag st = (Returned [], st).
Proof.
  intros Hpage Hsize Hall Hpast.
  destruct (list_habits_when_all_validate page size tag st all
              Hpage Hsize Hall) as (items & -> & -> & _).
  now rewrite py_slice_past_the_end by lia.
Qed.


(** * Further properties of the handlers *)

(** ** Position of entries in a dictionary *)

Module PyDictOrder.
Import PyDict.

Section Order.
Context {V : Type}.
Implicit Types (d : dict V) (k : string) (v : V).


Lemma get_None_keys k d : get k d = None -> ~ In k (keys d).
Proof.
  induction d as [|[k' v'] d IH]; simpl; [tauto|].
  destruct (String.eqb_spec k k') as [->|Hne]; [discriminate|].
  intros Hget [Heq|Hin]; [congruence | now apply IH].
Qed.




(** [d[k] = v] on a new key puts the entry last. *)
Lemma set_fresh k v d : get k d = None -> set k v d = (d ++ [(k, v)])%list.
Proof.
  induction d as [|[k' v'] d IH]; simpl; [reflexivity|].
  destruct (String.eqb k k'); [discriminate|].
  intros H. now rewrite IH.
Qed.

(** [d[k] = v] on a key of [d] replaces the value where it stands. *)
Lemma set_stored k v v0 d :
  get k d = Some v0 ->
  exists before after,
    d = (before ++ (k, v0) :: after)%list
    /\ set k v d = (before ++ (k, v) :: after)%list
    /\ ~ In k (keys before).
Proof.
  induction d as [|[k' v'] d IH]; simpl; [discriminate|].
  destruct (String.eqb_spec k k') as [<-|Hne].
  - intros [= ->]. exists [], d. simpl. tauto.
  - intros Hget. destruct (IH Hget) as (before & after & -> & -> & Hnin).
    exists ((k', v') :: before), after. simpl. intuition congruence.
Qed.


End Order.
End PyDictOrder.

(** ** Identifiers and keys *)

Lemma create_task_store payload now uuid4 st :
  exists record t,
    create_task payload now uuid4 st
    = (Returned t,
       {| TASKS := PyDict.set uuid4 record (TASKS st); HABITS := HABITS st |})
    /\ tr_id record = uuid4
    /\ Task_of_record record = Returned t.
Proof.
  unfold_handlers; unfold_monad; simpl. do 2 eexists. repeat split.
Qed.

Lemma create_habit_store payload now uuid4 st :
  exists record h,
    create_habit payload now uuid4 st
    = (Returned h,
       {| TASKS := TASKS st; HABITS := PyDict.set uuid4 record (HABITS st) |})
    /\ hr_id record = uuid4
    /\ Habit_of_record record = Returned h.
Proof.
  unfold_handlers; unfold_monad; simpl. do 2 eexists. repeat split.
Qed.

Lemma store_after_create_task_set payload now uuid4 st :
  exists record t,
    store_after (create_task payload now uuid4) st
    = {| TASKS := PyDict.set uuid4 record (TASKS st); HABITS := HABITS st |}
    /\ tr_id record = uuid4
    /\ Task_of_record record = Returned t.
Proof.
  destruct (create_task_store payload now uuid4 st) as (record & t & H & Hid & Hv).
  exists record, t. unfold store_after. now rewrite H.
Qed.

Lemma store_after_create_habit_set payload now uuid4 st :
  exists record h,
    store_after (create_habit payload now uuid4) st
    = {| TASKS := TASKS st; HABITS := PyDict.set uuid4 record (HABITS st) |}
    /\ hr_id record = uuid4
    /\ Habit_of_record record = Returned h.
Proof.
  destruct (create_habit_store payload now uuid4 st) as (record & h & H & Hid & Hv).
  exists record, h. unfold store_after. now rewrite H.
Qed.





(** ** Where create and delete leave the other records *)

(** X2. A create under an identifier that is not stored puts the new record
    last and leaves every stored entry where it was; under an identifier that
    is stored (the handler does not check) it replaces that record where it
    stands, so the number and order of the keys do not change. *)
Theorem create_appends_or_replaces :
  (forall (payload : TaskCreate) (now : datetime) (uuid4 : string) (st : Store),
      let st' := store_after (create_task payload now uuid4) st in
      exists record,
        tr_id record = uuid4 /\
        (PyDict.get uuid4 (TASKS st) = None ->
         TASKS st' = (TASKS st ++ [(uuid4, record)])%list) /\
        (forall old, PyDict.get uuid4 (TASKS st) = Some old ->
         exists before after,
           TASKS st = (before ++ (uuid4, old) :: after)%list /\
           TASKS st' = (before ++ (uuid4, record) :: after)%list))
  /\
  (forall (payload : HabitCreate) (now : datetime) (uuid4 : string) (st : Store),
      let st' := store_after (create_habit payload now uuid4) st in
      exists record,
        hr_id record = uuid4 /\
        (PyDict.get uuid4 (HABITS st) = None ->
         HABITS st' = (HABITS st ++ [(uuid4, record)])%list) /\
        (forall old, PyDict.get uuid4 (HABITS st) = Some old ->
         exists before after,
           HABITS st = (before ++ (uuid4, old) :: after)%list /\
           HABITS st' = (before ++ (uuid4, record) :: after)%list)).
Proof.
  split; intros payload now uuid4 st st'; subst st'.
  - destruct (store_after_create_task_set payload now uuid4 st)
      as (record & t & -> & Hid & _).
    exists record. simpl. split; [exact Hid|]. split.
    + intros Hfresh. now apply PyDictOrder.set_fresh.
    + intros old Hold.
      destruct (PyDictOrder.set_stored uuid4 record old _ Hold)
        as (before & after & H1 & H2 & _).
      exists before, after. split; assumption.
  - destruct (store_after_create_habit_set payload now uuid4 st)
      as (record & h & -> & Hid & _).
    exists record. simpl. split; [exact Hid|]. split.
    + intros Hfresh. now apply PyDictOrder.set_fresh.
    + intros old Hold.
      destruct (PyDictOrder.set_stored uuid4 record old _ Hold)
        as (before & after & H1 & H2 & _).
      exists before, after. split; assumption.
Qed.


Lemma create_appends_or_replaces_witness :
  (exists record,
      TASKS (store_after (create_task milk_payload 2000 "id-5") one_of_each)
      = (TASKS one_of_each ++ [("id-5", record)])%list)
  /\
  (exists record old before after,
      HABITS one_of_each = (before ++ ("id-2", old) :: after)%list
      /\ HABITS (store_after (create_habit stretch_payload 2000 "id-2") one_of_each)
         = (before ++ ("id-2", record) :: after)%list).
Proof.
  destruct create_appends_or_replaces as [HT HH]. split.
  - destruct (HT milk_payload 2000 "id-5" one_of_each) as (record & _ & Hfresh & _).
    exists record. apply Hfresh. reflexivity.
  - destruct (HH stretch_payload 2000 "id-2" one_of_each) as (record & _ & _ & Hold).
    destruct (Hold _ eq_refl) as (before & after & H1 & H2).
    exists record. eexists. exists before, after. split; eassumption.
Defined.


(** ** Which requests are answered with which error *)

Lemma Task_of_record_raises r e :
  Task_of_record r = Raised e -> e = ValidationError.
Proof.
  unfold Task_of_record.
  destruct (tr_title r), (tr_tags r), (tr_completed r);
    intros [= <-] || discriminate; reflexivity.
Qed.

Lemma Habit_of_record_raises r e :
  Habit_of_record r = Raised e -> e = ValidationError.
Proof.
  unfold Habit_of_record.
  destruct (hr_name r), (hr_frequency r), (hr_tags r);
    intros [= <-] || discriminate; reflexivity.
Qed.

Lemma comprehension_if_raises {A} (p : A -> result bool) items e :
  comprehension_if p items = Raised e ->
  exists a, In a items /\ p a = Raised e.
Proof.
  induction items as [|a items IH]; simpl; [discriminate|].
  destruct (p a) as [b|e'] eqn:Hp.
  - destruct (comprehension_if p items) as [kept|e'']; [discriminate|].
    intros [= <-]. destruct (IH eq_refl) as (a' & Hin & Ha'). eauto.
  - intros [= <-]. eauto.
Qed.

Lemma comprehension_map_raises {A B} (f : A -> result B) items e :
  comprehension_map f items = Raised e ->
  exists a, In a items /\ f a = Raised e.
Proof.
  induction items as [|a items IH]; simpl; [discriminate|].
  destruct (f a) as [b|e'] eqn:Hf.
  - destruct (comprehension_map f items) as [bs|e'']; [discriminate|].
    intros [= <-]. destruct (IH eq_refl) as (a' & Hin & Ha'). eauto.
  - intros [= <-]. eauto.
Qed.




(** X4. A get or an update is answered with the 404 [HTTPException] exactly
    when the identifier is not stored, and then the store is left as it was;
    for tasks and for habits. *)
Theorem not_found_exactly_when_absent :
  (forall (task_id : string) (payload : TaskUpdate) (now : datetime)
          (st : Store),
      (outcome (get_task task_id) st
       = Raised (HTTPException 404 "Task not found")
       <-> PyDict.get task_id (TASKS st) = None)
      /\
      (outcome (update_task task_id payload now) st
       = Raised (HTTPException 404 "Task not found")
       <-> PyDict.get task_id (TASKS st) = None)
      /\
      (PyDict.get task_id (TASKS st) = None ->
       store_after (update_task task_id payload now) st = st))
  /\
  (forall (habit_id : string) (payload : HabitUpdate) (now : datetime )
          (st : Store),
      (outcome (get_habit habit_id) st
       = Raised (HTTPException 404 "Habit not found")
       <-> PyDict.get habit_id (HABITS st) = None)
      /\
      (outcome (update_habit habit_id payload now) st
       = Raised (HTTPException 404 "Habit not found")
       <-> PyDict.get habit_id (HABITS st) = None)
      /\
      (PyDict.get habit_id (HABITS st) = None ->
       store_after (update_habit habit_id payload now) st = st)).
Proof.
  split.
  - intros tid payload now st. split; [|split].
    + unfold get_task; unfold_monad; simpl.
      destruct (PyDict.get tid (TASKS st)) as [r|]; simpl; [|tauto].
      split; [|discriminate].
      intros H. apply Task_of_record_raises in H. discriminate.
    + unfold update_task; unfold_monad; simpl.
      destruct (PyDict.get tid (TASKS st)) as [r|]; simpl; [|tauto].
      split; [|discriminate].
      destruct (Task_of_record _) eqn:Hv; [discriminate|].
      intros [= ->]. apply Task_of_record_raises in Hv. discriminate.
    + intros Hget. now rewrite store_after_update_task, Hget.
  - intros hid payload now st. split; [|split].
    + unfold get_habit; unfold_monad; simpl.
      destruct (PyDict.get hid (HABITS st)) as [r|]; simpl; [|tauto].
      split; [|discriminate].
      intros H. apply Habit_of_record_raises in H. discriminate.
    + unfold update_habit; unfold_monad; simpl.
      destruct (PyDict.get hid (HABITS st)) as [r|]; simpl; [|tauto].
      split; [|discriminate].
      destruct (Habit_of_record _) eqn:Hv; [discriminate|].
      intros [= ->]. apply Habit_of_record_raises in Hv. discriminate.
    + intros Hget. now rewrite store_after_update_habit, Hget.
Qed.

Lemma not_found_exactly_when_absent_witness :
  outcome (get_task "id-9") one_of_each
  = Raised (HTTPException 404 "Task not found")
  /\ store_after (update_task "id-9" mark_done 2000) one_of_each = one_of_each
  /\ PyDict.get "id-9" (HABITS one_of_each) = None.
Proof.
  destruct not_found_exactly_when_absent as [HT HH].
  destruct (HT "id-9" mark_done 2000 one_of_each) as (Hg & _ & Hs).
  destruct (HH "id-9" weekly 2000 one_of_each) as (_ & Hu & _).
  split; [apply Hg; reflexivity|].
  split; [apply Hs; reflexivity|].
  apply Hu. reflexivity.
Defined.

(** ** Query parameters *)



Lemma Query_size_returns size s :
  Query 50 1 (Some 200) size = Returned s ->
  1 <= s <= 200 /\ match size with Some s' => s' = s | None => s = 50 end.
Proof.
  unfold Query. destruct size as [s'|]; simpl.
  - destruct (Z.leb_spec 1 s'), (Z.leb_spec s' 200); simpl;
      try discriminate. intros [= <-]. lia.
  - intros [= <-]. lia.
Qed.

Lemma Query_page_returns page p :
  Query 1 1 None page = Returned p ->
  1 <= p /\ match page with Some p' => p' = p | None => p = 1 end.
Proof.
  unfold Query. destruct page as [p'|]; simpl.
  - rewrite andb_true_r. destruct (Z.leb_spec 1 p'); [|discriminate].
    now intros [= <-].
  - intros [= <-]. lia.
Qed.



(** ** Create bodies *)



(** ** What an update answers *)

Lemma update_task_answer task_id record payload now st :
  PyDict.get task_id (TASKS st) = Some record ->
  let record' :=
    task_set_updated_at
      (fold_left task_setitem (TaskUpdate_model_dump payload) record) now in
  outcome (update_task task_id payload now) st = Task_of_record record'
  /\ PyDict.get task_id (TASKS (store_after (update_task task_id payload now) st))
     = Some record'
  /\ outcome (get_task task_id) (store_after (update_task task_id payload now) st)
     = Task_of_record record'.
Proof.
  intros Hget record'. rewrite store_after_update_task, Hget. fold record'.
  split; [|split].
  - unfold update_task; unfold_monad; simpl. rewrite Hget. simpl. fold record'.
    now destruct (Task_of_record record').
  - apply PyDictFacts.get_set_eq.
  - unfold get_task; unfold_monad; simpl.
    rewrite PyDictFacts.get_set_eq. reflexivity.
Qed.

Lemma update_habit_answer habit_id record payload now st :
  PyDict.get habit_id (HABITS st) = Some record ->
  let record' :=
    habit_set_updated_at
      (fold_left habit_setitem (HabitUpdate_model_dump payload) record) now in
  outcome (update_habit habit_id payload now) st = Habit_of_record record'
  /\ PyDict.get habit_id
       (HABITS (store_after (update_habit habit_id payload now) st))
     = Some record'
  /\ outcome (get_habit habit_id)
       (store_after (update_habit habit_id payload now) st)
     = Habit_of_record record'.
Proof.
  intros Hget record'. rewrite store_after_update_habit, Hget. fold record'.
  split; [|split].
  - unfold update_habit; unfold_monad; simpl. rewrite Hget. simpl. fold record'.
    now destruct (Habit_of_record record').
  - apply PyDictFacts.get_set_eq.
  - unfold get_habit; unfold_monad; simpl.
    rewrite PyDictFacts.get_set_eq. reflexivity.
Qed.

Lemma Task_of_merged record t0 payload now :
  Task_of_record record = Returned t0 ->
  let record' :=
    task_set_updated_at
      (fold_left task_setitem (TaskUpdate_model_dump payload) record) now in
  let bad :=
    tu_title payload = Given None \/ tu_tags payload = Given None
    \/ tu_completed payload = Given None in
  (bad -> Task_of_record record' = Raised ValidationError)
  /\ (~ bad -> exists t, Task_of_record record' = Returned t).
Proof.
  intros Hvalid record' bad. subst record' bad.
  destruct (task_merge payload record) as (H1 & _ & _ & _ & H5 & H6).
  destruct (task_set_updated_at_fields
              (fold_left task_setitem (TaskUpdate_model_dump payload) record) now)
    as (E1 & _ & _ & _ & E5 & E6).
  unfold Task_of_record in *. rewrite E1, E5, E6. clear E1 E5 E6.
  destruct (tr_title record), (tr_tags record), (tr_completed record);
    try discriminate.
  destruct (tu_title payload) as [|[?|]], (tu_tags payload) as [|[?|]],
    (tu_completed payload) as [|[?|]];
    simpl in H1, H5, H6; rewrite ?H1, ?H5, ?H6; simpl; split;
    try (intros _; reflexivity);
    try (intros _; eexists; reflexivity);
    try (intros [H|[H|H]]; discriminate H);
    intros H; exfalso; apply H; auto.
Qed.

Lemma Habit_of_merged record h0 payload now :
  Habit_of_record record = Returned h0 ->
  let record' :=
    habit_set_updated_at
      (fold_left habit_setitem (HabitUpdate_model_dump payload) record) now in
  let bad :=
    hu_name payload = Given None \/ hu_frequency payload = Given None
    \/ hu_tags payload = Given None in
  (bad -> Habit_of_record record' = Raised ValidationError)
  /\ (~ bad -> exists h, Habit_of_record record' = Returned h).
Proof.
  intros Hvalid record' bad. subst record' bad.
  destruct (habit_merge payload record) as (H1 & _ & H3 & _ & _ & H6).
  destruct (habit_set_updated_at_fields
              (fold_left habit_setitem (HabitUpdate_model_dump payload) record)
              now)
    as (E1 & _ & E3 & _ & _ & E6).
  unfold Habit_of_record in *. rewrite E1, E3, E6. clear E1 E3 E6.
  destruct (hr_name record), (hr_frequency record), (hr_tags record);
    try discriminate.
  destruct (hu_name payload) as [|[?|]], (hu_frequency payload) as [|[?|]],
    (hu_tags payload) as [|[?|]];
    simpl in H1, H3, H6; rewrite ?H1, ?H3, ?H6; simpl; split;
    try (intros _; reflexivity);
    try (intros _; eexists; reflexivity);
    try (intros [H|[H|H]]; discriminate H);
    intros H; exfalso; apply H; auto.
Qed.

(** X7. Updating a stored record that validates: when the payload gives null
    under a key the response model does not allow to be null ([title],
    [tags], [completed]; for a habit [name], [frequency], [tags]), the update
    raises [ValidationError], the null is stored all the same, and a get of
    the identifier raises [ValidationError] from then on.  With any other
    payload the update returns the record, and a get of the identifier
    returns the same record. *)
Theorem update_answers_what_get_then_answers :
  (forall (task_id : string) (record : task_record) (t0 : Task)
          (payload : TaskUpdate) (now : datetime) (st : Store),
      PyDict.get task_id (TASKS st) = Some record ->
      Task_of_record record = Returned t0 ->
      let st' := store_after (update_task task_id payload now) st in
      let bad :=
        tu_title payload = Given None \/ tu_tags payload = Given None
        \/ tu_completed payload = Given None in
      (bad ->
       outcome (update_task task_id payload now) st = Raised ValidationError
       /\ outcome (get_task task_id) st' = Raised ValidationError)
      /\
      (~ bad ->
       exists t,
         outcome (update_task task_id payload now) st = Returned t
         /\ outcome (get_task task_id) st' = Returned t))
  /\
  (forall (habit_id : string) (record : habit_record) (h0 : Habit)
          (payload : HabitUpdate) (now : datetime) (st : Store),
      PyDict.get habit_id (HABITS st) = Some record ->
      Habit_of_record record = Returned h0 ->
      let st' := store_after (update_habit habit_id payload now) st in
      let bad :=
        hu_name payload = Given None \/ hu_frequency payload = Given None
        \/ hu_tags payload = Given None in
      (bad ->
       outcome (update_habit habit_id payload now) st = Raised ValidationError
       /\ outcome (get_habit habit_id) st' = Raised ValidationError)
      /\
      (~ bad ->
       exists h,
         outcome (update_habit habit_id payload now) st = Returned h
         /\ outcome (get_habit habit_id) st' = Returned h)).
Proof.
  split.
  - intros tid record t0 payload now st Hget Hvalid st' bad. subst st' bad.
    destruct (update_task_answer tid record payload now st Hget)
      as (-> & _ & ->).
    destruct (Task_of_merged record t0 payload now Hvalid) as [Hbad Hok].
    split.
    + intros H. now rewrite (Hbad H).
    + intros H. destruct (Hok H) as [t Ht]. exists t. now rewrite Ht.
  - intros hid record h0 payload now st Hget Hvalid st' bad. subst st' bad.
    destruct (update_habit_answer hid record payload now st Hget)
      as (-> & _ & ->).
    destruct (Habit_of_merged record h0 payload now Hvalid) as [Hbad Hok].
    split.
    + intros H. now rewrite (Hbad H).
    + intros H. destruct (Hok H) as [h Hh]. exists h. now rewrite Hh.
Qed.

Lemma update_answers_what_get_then_answers_witness :
  (outcome (update_task "id-1" null_title 2000) one_of_each
   = Raised ValidationError
   /\ outcome (get_task "id-1")
        (store_after (update_task "id-1" null_title 2000) one_of_each)
      = Raised ValidationError)
  /\
  (exists h,
      outcome (update_habit "id-2" weekly 2000) one_of_each = Returned h
      /\ outcome (get_habit "id-2")
           (store_after (update_habit "id-2" weekly 2000) one_of_each)
         = Returned h).
Proof.
  destruct update_answers_what_get_then_answers as [HT HH]. split.
  - destruct (HT "id-1" _ _ null_title 2000 one_of_each eq_refl eq_refl)
      as [Hbad _].
    apply Hbad. left. reflexivity.
  - destruct (HH "id-2" _ _ weekly 2000 one_of_each eq_refl eq_refl)
      as [_ Hok].
    apply Hok. intros [H|[H|H]]; discriminate H.
Defined.

(** ** Stores in which every record validates *)

Lemma In_py_slice {A} (x : A) l start stop :
  In x (py_slice l start stop) -> In x l.
Proof.
  unfold py_slice. intros Hin.
  set (s := Z.to_nat (slice_bound (Z.of_nat (List.length l)) start)) in *.
  set (n := Z.to_nat _) in Hin.
  rewrite <- (firstn_skipn s l). apply in_or_app. right.
  rewrite <- (firstn_skipn n (skipn s l)). apply in_or_app. now left.
Qed.

Lemma comprehension_if_incl {A} (p : A -> result bool) items kept x :
  comprehension_if p items = Returned kept -> In x kept -> In x items.
Proof.
  revert kept. induction items as [|a items IH]; intros kept; simpl.
  - now intros [= <-].
  - destruct (p a) as [b|]; [|discriminate].
    destruct (comprehension_if p items) as [kept'|]; [|discriminate].
    intros [= <-]. destruct b; simpl; [intros [->|H]|]; eauto.
Qed.

Lemma list_tasks_raises_at page size tag completed st e :
  outcome (list_tasks page size tag completed) st = Raised e ->
  exists r, In r (PyDict.values (TASKS st))
            /\ (tr_tags r = None \/ Task_of_record r = Raised e).
Proof.
  unfold list_tasks; unfold_monad; simpl.
  destruct tag as [tag|]; simpl.
  - destruct (comprehension_if _ _) as [kept|e'] eqn:Hif; simpl.
    + destruct (comprehension_map _ _) as [ts|e'] eqn:Hmap; [discriminate|].
      intros [= <-].
      destruct (comprehension_map_raises _ _ _ Hmap) as (r & Hin & Hr).
      exists r. split; [|now right].
      apply In_py_slice in Hin.
      apply (comprehension_if_incl _ _ _ _ Hif).
      destruct completed; [now apply filter_In in Hin | assumption].
    + intros [= <-].
      destruct (comprehension_if_raises _ _ _ Hif) as (r & Hin & Hr).
      exists r. split; [assumption|]. left.
      destruct (tr_tags r); [discriminate | reflexivity].
  - destruct (comprehension_map _ _) as [ts|e'] eqn:Hmap; [discriminate|].
    intros [= <-].
    destruct (comprehension_map_raises _ _ _ Hmap) as (r & Hin & Hr).
    exists r. split; [|now right].
    apply In_py_slice in Hin.
    destruct completed; [now apply filter_In in Hin | assumption].
Qed.

Lemma list_habits_raises_at page size tag st e :
  outcome (list_habits page size tag) st = Raised e ->
  exists r, In r (PyDict.values (HABITS st))
            /\ (hr_tags r = None \/ Habit_of_record r = Raised e).
Proof.
  unfold list_habits; unfold_monad; simpl.
  destruct tag as [tag|]; simpl.
  - destruct (comprehension_if _ _) as [kept|e'] eqn:Hif; simpl.
    + destruct (comprehension_map _ _) as [hs|e'] eqn:Hmap; [discriminate|].
      intros [= <-].
      destruct (comprehension_map_raises _ _ _ Hmap) as (r & Hin & Hr).
      exists r. split; [|now right].
      apply In_py_slice in Hin.
      apply (comprehension_if_incl _ _ _ _ Hif). assumption.
    + intros [= <-].
      destruct (comprehension_if_raises _ _ _ Hif) as (r & Hin & Hr).
      exists r. split; [assumption|]. left.
      destruct (hr_tags r); [discriminate | reflexivity].
  - destruct (comprehension_map _ _) as [hs|e'] eqn:Hmap; [discriminate|].
    intros [= <-].
    destruct (comprehension_map_raises _ _ _ Hmap) as (r & Hin & Hr).
    exists r. split; [|now right].
    now apply In_py_slice in Hin.
Qed.

Lemma Task_of_record_tags r t : Task_of_record r = Returned t -> tr_tags r <> None.
Proof.
  unfold Task_of_record.
  destruct (tr_title r), (tr_tags r), (tr_completed r); discriminate.
Qed.

Lemma Habit_of_record_tags r h :
  Habit_of_record r = Returned h -> hr_tags r <> None.
Proof.
  unfold Habit_of_record.
  destruct (hr_name r), (hr_frequency r), (hr_tags r); discriminate.
Qed.

Lemma list_tasks_returns_when_all_validate page size tag completed st :
  all_validate st ->
  exists l, outcome (list_tasks page size tag completed) st = Returned l.
Proof.
  intros [HT _].
  destruct (outcome (list_tasks page size tag completed) st) as [l|e] eqn:H;
    [eauto|].
  destruct (list_tasks_raises_at _ _ _ _ _ _ H) as (r & Hin & Hr).
  destruct (HT r Hin) as [t Ht]. destruct Hr as [Hr|Hr].
  - now apply Task_of_record_tags in Ht.
  - congruence.
Qed.

Lemma list_habits_returns_when_all_validate page size tag st :
  all_validate st ->
  exists l, outcome (list_habits page size tag) st = Returned l.
Proof.
  intros [_ HH].
  destruct (outcome (list_habits page size tag) st) as [l|e] eqn:H; [eauto|].
  destruct (list_habits_raises_at _ _ _ _ _ H) as (r & Hin & Hr).
  destruct (HH r Hin) as [h Hh]. destruct Hr as [Hr|Hr].
  - now apply Habit_of_record_tags in Hh.
  - congruence.
Qed.

Lemma outcome_bind_ret {A B} (m : M A) (f : A -> B) st e :
  outcome (x <- m ;; ret (f x)) st = Raised e <-> outcome m st = Raised e.
Proof.
  unfold outcome, bind, ret. destruct (m st) as [[a|e'] st']; simpl;
    split; congruence.
Qed.

Lemma required_raises {A} (f : field A) e :
  required f = Raised e -> e = RequestValidationError.
Proof. destruct f as [|[?|]]; simpl; congruence. Qed.

Lemma defaulted_raises {A} (d : A) (f : field A) e :
  defaulted d f = Raised e -> e = RequestValidationError.
Proof. destruct f as [|[?|]]; simpl; congruence. Qed.

Lemma TaskCreate_validate_raises body e :
  TaskCreate_validate body = Raised e -> e = RequestValidationError.
Proof.
  unfold TaskCreate_validate.
  destruct (required (b_title body)) eqn:H1;
    [|intros [= <-]; eapply required_raises; eassumption].
  destruct (defaulted [] (b_tags body)) eqn:H2;
    [|intros [= <-]; eapply defaulted_raises; eassumption].
  destruct (defaulted false (b_completed body)) eqn:H3;
    [discriminate|intros [= <-]; eapply defaulted_raises; eassumption].
Qed.

Lemma HabitCreate_validate_raises body e :
  HabitCreate_validate body = Raised e -> e = RequestValidationError.
Proof.
  unfold HabitCreate_validate.
  destruct (required (hb_name body)) eqn:H1;
    [|intros [= <-]; eapply required_raises; eassumption].
  destruct (defaulted "daily" (hb_frequency body)) eqn:H2;
    [|intros [= <-]; eapply defaulted_raises; eassumption].
  destruct (defaulted [] (hb_tags body)) eqn:H3;
    [discriminate|intros [= <-]; eapply defaulted_raises; eassumption].
Qed.

Lemma Query_raises default ge le given e :
  Query default ge le given = Raised e -> e = RequestValidationError.
Proof.
  unfold Query. destruct given; [|discriminate].
  destruct (_ && _); congruence.
Qed.

Lemma route_list_tasks_raises page size tag completed st e :
  outcome (route_list_tasks page size tag completed) st = Raised e ->
  e = RequestValidationError
  \/ exists p s, outcome (list_tasks p s tag completed) st = Raised e.
Proof.
  unfold route_list_tasks. unfold outcome, bind, lift at 1 2.
  destruct (Query 1 1 None page) as [p|e'] eqn:Hp; simpl.
  - destruct (Query 50 1 (Some 200) size) as [s|e'] eqn:Hs; simpl.
    + intros H. right. exists p, s. exact H.
    + intros [= <-]. left. eapply Query_raises; eassumption.
  - intros [= <-]. left. eapply Query_raises; eassumption.
Qed.

Lemma route_list_habits_raises page size tag st e :
  outcome (route_list_habits page size tag) st = Raised e ->
  e = RequestValidationError
  \/ exists p s, outcome (list_habits p s tag) st = Raised e.
Proof.
  unfold route_list_habits. unfold outcome, bind, lift at 1 2.
  destruct (Query 1 1 None page) as [p|e'] eqn:Hp; simpl.
  - destruct (Query 50 1 (Some 200) size) as [s|e'] eqn:Hs; simpl.
    + intros H. right. exists p, s. exact H.
    + intros [= <-]. left. eapply Query_raises; eassumption.
  - intros [= <-]. left. eapply Query_raises; eassumption.
Qed.

Lemma route_create_task_raises body now uuid4 st e :
  outcome (route_create_task body now uuid4) st = Raised e ->
  e = RequestValidationError.
Proof.
  unfold route_create_task. unfold outcome, bind, lift at 1.
  destruct (TaskCreate_validate body) as [payload|e'] eqn:Hv; cbv beta iota.
  - destruct (create_task_store payload now uuid4 st) as (r & t & Heq & _).
    rewrite Heq. discriminate.
  - intros [= <-]. eapply TaskCreate_validate_raises; eassumption.
Qed.

Lemma route_create_habit_raises body now uuid4 st e :
  outcome (route_create_habit body now uuid4) st = Raised e ->
  e = RequestValidationError.
Proof.
  unfold route_create_habit. unfold outcome, bind, lift at 1.
  destruct (HabitCreate_validate body) as [payload|e'] eqn:Hv; cbv beta iota.
  - destruct (create_habit_store payload now uuid4 st) as (r & h & Heq & _).
    rewrite Heq. discriminate.
  - intros [= <-]. eapply HabitCreate_validate_raises; eassumption.
Qed.

Lemma serve_raises_when_all_validate req now uuid4 st e :
  all_validate st ->
  outcome (serve req now uuid4) st = Raised e ->
  e = HTTPException 404 "Task not found"
  \/ e = HTTPException 404 "Habit not found"
  \/ e = RequestValidationError
  \/ (e = ValidationError /\ is_patch req = true).
Proof.
  intros Hvalid.
  destruct req as [page size tag completed|body|tid|tid payload|tid
                  |page size tag|body|hid|hid payload|hid];
    unfold serve; intros H; apply outcome_bind_ret in H.
  - apply route_list_tasks_raises in H. destruct H as [->|(p & s & H)]; [auto|].
    destruct (list_tasks_returns_when_all_validate p s tag completed st Hvalid)
      as [l Hl]. congruence.
  - apply route_create_task_raises in H. auto.
  - revert H. unfold get_task; unfold_monad; simpl.
    destruct (PyDict.get tid (TASKS st)) as [r|] eqn:Hget; simpl.
    + destruct (proj1 Hvalid r (PyDictFacts.get_In_values _ _ _ Hget)) as [t ->].
      discriminate.
    + intros [= <-]. auto.
  - revert H. unfold update_task; unfold_monad; simpl.
    destruct (PyDict.get tid (TASKS st)) as [r|] eqn:Hget; simpl.
    + destruct (Task_of_record _) eqn:Hv; [discriminate|].
      intros [= <-]. apply Task_of_record_raises in Hv. subst. auto.
    + intros [= <-]. auto.
  - revert H. unfold delete_task; unfold_monad; simpl.
    destruct (PyDict.contains tid (TASKS st)); simpl; [discriminate|].
    intros [= <-]. auto.
  - apply route_list_habits_raises in H. destruct H as [->|(p & s & H)]; [auto|].
    destruct (list_habits_returns_when_all_validate p s tag st Hvalid)
      as [l Hl]. congruence.
  - apply route_create_habit_raises in H. auto.
  - revert H. unfold get_habit; unfold_monad; simpl.
    destruct (PyDict.get hid (HABITS st)) as [r|] eqn:Hget; simpl.
    + destruct (proj2 Hvalid r (PyDictFacts.get_In_values _ _ _ Hget)) as [h ->].
      discriminate.
    + intros [= <-]. auto.
  - revert H. unfold update_habit; unfold_monad; simpl.
    destruct (PyDict.get hid (HABITS st)) as [r|] eqn:Hget; simpl.
    + destruct (Habit_of_record _) eqn:Hv; [discriminate|].
      intros [= <-]. apply Habit_of_record_raises in Hv. subst. auto.
    + intros [= <-]. auto.
  - revert H. unfold delete_habit; unfold_monad; simpl.
    destruct (PyDict.contains hid (HABITS st)); simpl; [discriminate|].
    intros [= <-]. auto.
Qed.

Lemma serve_keeps_validating req now uuid4 st :
  all_validate st ->
  outcome (serve req now uuid4) st <> Raised ValidationError ->
  all_validate (store_after (serve req now uuid4) st).
Proof.
  intros Hvalid Hok. rewrite store_after_serve.
  destruct req as [page size tag completed|body|tid|tid payload|tid
                  |page size tag|body|hid|hid payload|hid];
    rewrite ?store_after_route_list_tasks, ?store_after_get_task,
      ?store_after_route_list_habits, ?store_after_get_habit;
    auto.
  - rewrite store_after_route_create_task.
    destruct (TaskCreate_validate body) as [payload|]; auto.
    destruct (store_after_create_task_set payload now uuid4 st)
      as (record & t & -> & _ & Hv).
    destruct Hvalid as [HT HH]. split; simpl; [|assumption].
    intros r Hin. apply PyDictFacts.In_values_set in Hin.
    destruct Hin as [->|Hin]; eauto.
  - rewrite store_after_update_task.
    destruct (PyDict.get tid (TASKS st)) as [record|] eqn:Hget; auto.
    destruct Hvalid as [HT HH]. split; simpl; [|assumption].
    intros r Hin. apply PyDictFacts.In_values_set in Hin.
    destruct Hin as [->|Hin]; [|auto].
    destruct (update_task_answer tid record payload now st Hget) as (Hout & _).
    destruct (Task_of_record _) as [t|e] eqn:Hv; [eauto|].
    exfalso. apply Hok. apply outcome_bind_ret. rewrite Hout.
    apply Task_of_record_raises in Hv. now subst.
  - rewrite store_after_delete_task.
    destruct (PyDict.contains tid (TASKS st)); auto.
    destruct Hvalid as [HT HH]. split; simpl; [|assumption].
    intros r Hin. apply PyDictFacts.In_values_del in Hin. auto.
  - rewrite store_after_route_create_habit.
    destruct (HabitCreate_validate body) as [payload|]; auto.
    destruct (store_after_create_habit_set payload now uuid4 st)
      as (record & h & -> & _ & Hv).
    destruct Hvalid as [HT HH]. split; simpl; [assumption|].
    intros r Hin. apply PyDictFacts.In_values_set in Hin.
    destruct Hin as [->|Hin]; eauto.
  - rewrite store_after_update_habit.
    destruct (PyDict.get hid (HABITS st)) as [record|] eqn:Hget; auto.
    destruct Hvalid as [HT HH]. split; simpl; [assumption|].
    intros r Hin. apply PyDictFacts.In_values_set in Hin.
    destruct Hin as [->|Hin]; [|auto].
    destruct (update_habit_answer hid record payload now st Hget) as (Hout & _).
    destruct (Habit_of_record _) as [h|e] eqn:Hv; [eauto|].
    exfalso. apply Hok. apply outcome_bind_ret. rewrite Hout.
    apply Habit_of_record_raises in Hv. now subst.
  - rewrite store_after_delete_habit.
    destruct (PyDict.contains hid (HABITS st)); auto.
    destruct Hvalid as [HT HH]. split; simpl; [assumption|].
    intros r Hin. apply PyDictFacts.In_values_del in Hin. auto.
Qed.




Lemma serve_all_keeps_validating reqs st :
  Forall (fun x => is_patch (fst (fst x)) = false) reqs ->
  all_validate st ->
  all_validate (serve_all reqs st).
Proof.
  unfold serve_all. intros Hreqs. revert st.
  induction Hreqs as [|[[req now] uuid4] reqs Hreq Hreqs IH]; intros st Hvalid;
    simpl; [assumption|].
  apply IH. apply serve_keeps_validating; [assumption|].
  intros Hraised.
  destruct (serve_raises_when_all_validate req now uuid4 st _ Hvalid Hraised)
    as [H|[H|[H|[_ H]]]]; try discriminate H.
  simpl in Hreq. congruence.
Qed.

(** X9. After any sequence of requests with no update among them, served
    from the empty store, every stored record validates, and so both list
    handlers return, whatever the page, the size and the filters. *)
Theorem listing_cannot_fail_without_updates :
  forall (reqs : list (request * datetime * string)),
    Forall (fun x => is_patch (fst (fst x)) = false) reqs ->
    let st := serve_all reqs empty_store in
    all_validate st
    /\ (forall page size tag completed,
          exists l, outcome (list_tasks page size tag completed) st = Returned l)
    /\ (forall page size tag,
          exists l, outcome (list_habits page size tag) st = Returned l).
Proof.
  intros reqs Hreqs st.
  assert (Hvalid : all_validate st).
  { apply serve_all_keeps_validating; [assumption|].
    split; intros r []. }
  split; [assumption|]. split.
  - intros. now apply list_tasks_returns_when_all_validate.
  - intros. now apply list_habits_returns_when_all_validate.
Qed.

Lemma listing_cannot_fail_without_updates_witness :
  all_validate one_of_each
  /\ exists l, outcome (list_tasks 1 50 (Some "home") None) one_of_each
               = Returned l.
Proof.
  destruct (listing_cannot_fail_without_updates
              [(POST_tasks buy_milk, 1000, "id-1");
               (POST_habits stretch, 1001, "id-2")])
    as (Hvalid & HT & _).
  - repeat constructor.
  - split; [exact Hvalid | apply HT].
Defined.

(** ** Size of a page *)

Lemma comprehension_map_length {A B} (f : A -> result B) items out :
  comprehension_map f items = Returned out ->
  List.length out = List.length items.
Proof.
  intros H. apply comprehension_map_Forall2 in H.
  symmetry. exact (Forall2_length H).
Qed.

Lemma py_slice_length {A} (l : list A) (start size : Z) :
  0 <= start -> 0 <= size ->
  Z.of_nat (List.length (py_slice l start (start + size))) <= size.
Proof.
  intros Hstart Hsize. rewrite py_slice_window by assumption.
  pose proof (firstn_le_length (Z.to_nat size) (skipn (Z.to_nat start) l)).
  lia.
Qed.

Lemma list_tasks_length page size tag completed st l :
  1 <= page -> 1 <= size ->
  outcome (list_tasks page size tag completed) st = Returned l ->
  Z.of_nat (List.length l) <= size.
Proof.
  intros Hpage Hsize. unfold list_tasks; unfold_monad; simpl.
  destruct (match tag with Some _ => _ | None => _ end) as [kept|]; simpl;
    [|discriminate].
  destruct (comprehension_map _ _) as [ts|] eqn:Hmap; [|discriminate].
  intros [= <-]. rewrite (comprehension_map_length _ _ _ Hmap).
  apply py_slice_length; nia.
Qed.

Lemma list_habits_length page size tag st l :
  1 <= page -> 1 <= size ->
  outcome (list_habits page size tag) st = Returned l ->
  Z.of_nat (List.length l) <= size.
Proof.
  intros Hpage Hsize. unfold list_habits; unfold_monad; simpl.
  destruct (match tag with Some _ => _ | None => _ end) as [kept|]; simpl;
    [|discriminate].
  destruct (comprehension_map _ _) as [hs|] eqn:Hmap; [|discriminate].
  intros [= <-]. rewrite (comprehension_map_length _ _ _ Hmap).
  apply py_slice_length; nia.
Qed.

Lemma route_list_tasks_returns page size tag completed st l :
  outcome (route_list_tasks page size tag completed) st = Returned l ->
  exists p s,
    outcome (list_tasks p s tag completed) st = Returned l
    /\ 1 <= p /\ 1 <= s <= 200
    /\ match page with Some p' => p' = p | None => p = 1 end
    /\ match size with Some s' => s' = s | None => s = 50 end.
Proof.
  unfold route_list_tasks. unfold outcome, bind, lift at 1 2.
  destruct (Query 1 1 None page) as [p|] eqn:Hp; [|discriminate].
  destruct (Query 50 1 (Some 200) size) as [s|] eqn:Hs; [|discriminate].
  simpl. intros H. exists p, s.
  apply Query_page_returns in Hp. apply Query_size_returns in Hs. tauto.
Qed.

Lemma route_list_habits_returns page size tag st l :
  outcome (route_list_habits page size tag) st = Returned l ->
  exists p s,
    outcome (list_habits p s tag) st = Returned l
    /\ 1 <= p /\ 1 <= s <= 200
    /\ match page with Some p' => p' = p | None => p = 1 end
    /\ match size with Some s' => s' = s | None => s = 50 end.
Proof.
  unfold route_list_habits. unfold outcome, bind, lift at 1 2.
  destruct (Query 1 1 None page) as [p|] eqn:Hp; [|discriminate].
  destruct (Query 50 1 (Some 200) size) as [s|] eqn:Hs; [|discriminate].
  simpl. intros H. exists p, s.
  apply Query_page_returns in Hp. apply Query_size_returns in Hs. tauto.
Qed.

(** X10. Whatever the store, a list request that is answered with records is
    answered with at most 200 of them, and with no more than the [size] asked
    for, or than 50 when no [size] is given. *)
Theorem page_holds_at_most_size_records :
  (forall (page size : option Z) (tag : option string)
          (completed : option bool) (st : Store) (l : list Task),
      outcome (route_list_tasks page size tag completed) st = Returned l ->
      Z.of_nat (List.length l) <= 200
      /\ Z.of_nat (List.length l)
         <= match size with Some s => s | None => 50 end)
  /\
  (forall (page size : option Z) (tag : option string) (st : Store)
          (l : list Habit),
      outcome (route_list_habits page size tag) st = Returned l ->
      Z.of_nat (List.length l) <= 200
      /\ Z.of_nat (List.length l)
         <= match size with Some s => s | None => 50 end).
Proof.
  split.
  - intros page size tag completed st l H.
    destruct (route_list_tasks_returns _ _ _ _ _ _ H)
      as (p & s & Hl & Hp & Hs & _ & Hsize).
    pose proof (list_tasks_length p s tag completed st l Hp (proj1 Hs) Hl).
    destruct size; subst; lia.
  - intros page size tag st l H.
    destruct (route_list_habits_returns _ _ _ _ _ H)
      as (p & s & Hl & Hp & Hs & _ & Hsize).
    pose proof (list_habits_length p s tag st l Hp (proj1 Hs) Hl).
    destruct size; subst; lia.
Qed.

Lemma page_holds_at_most_size_records_witness :
  (exists l,
      outcome (route_list_tasks None (Some 5) None None) crowded = Returned l
      /\ Z.of_nat (List.length l) <= 5)
  /\
  (exists l,
      outcome (route_list_habits (Some 2) None None) crowded = Returned l
      /\ Z.of_nat (List.length l) <= 50).
Proof.
  destruct page_holds_at_most_size_records as [HT HH]. split.
  - eexists. split; [reflexivity|].
    eapply (HT None (Some 5) None None crowded). reflexivity.
  - eexists. split; [reflexivity|].
    eapply (HH (Some 2) None None crowded). reflexivity.
Defined.

(** ** Paging through a store in which every record validates *)

(** X11. When every stored record validates, paging loses nothing: the
    record at index [j] among those that pass the filters is returned on page
    [j / size + 1], at offset [j mod size]. *)
Theorem each_matching_record_is_on_its_page :
  (forall (size : Z) (tag : option string) (completed : option bool)
          (st : Store) (all : list Task) (j : nat) (t : Task),
      1 <= size ->
      comprehension_map Task_of_record (PyDict.values (TASKS st)) = Returned all ->
      nth_error (filter (spec_task_passes tag completed) all) j = Some t ->
      exists l,
        list_tasks (Z.of_nat j / size + 1) size tag completed st
        = (Returned l, st)
        /\ nth_error l (Z.to_nat (Z.of_nat j mod size)) = Some t)
  /\
  (forall (size : Z) (tag : option string) (st : Store) (all : list Habit)
          (j : nat) (h : Habit),
      1 <= size ->
      comprehension_map Habit_of_record (PyDict.values (HABITS st)) = Returned all ->
      nth_error (filter (spec_habit_passes tag) all) j = Some h ->
      exists l,
        list_habits (Z.of_nat j / size + 1) size tag st = (Returned l, st)
        /\ nth_error l (Z.to_nat (Z.of_nat j mod size)) = Some h).
Proof.
  assert (Harith : forall (size : Z) (j : nat), 1 <= size ->
             1 <= Z.of_nat j / size + 1
             /\ (Z.of_nat (Z.to_nat (Z.of_nat j mod size)) <? size) = true
             /\ (Z.to_nat ((Z.of_nat j / size + 1 - 1) * size)
                 + Z.to_nat (Z.of_nat j mod size))%nat = j).
  { intros size j Hsize.
    pose proof (Z.div_pos (Z.of_nat j) size ltac:(lia) ltac:(lia)).
    pose proof (Z.mod_pos_bound (Z.of_nat j) size ltac:(lia)).
    pose proof (Z.div_mod (Z.of_nat j) size ltac:(lia)).
    split; [lia|]. split; [apply Z.ltb_lt; lia|]. nia. }
  split.
  - intros size tag completed st all j t Hsize Hall Hj.
    destruct (Harith size j Hsize) as (Hpage & Hlt & Hidx).
    destruct (list_tasks_when_all_validate _ size tag completed st all
                Hpage Hsize Hall) as (l & Hl & _ & Hnth).
    exists l. split; [exact Hl|].
    now rewrite Hnth, Hlt, Hidx.
  - intros size tag st all j h Hsize Hall Hj.
    destruct (Harith size j Hsize) as (Hpage & Hlt & Hidx).
    destruct (list_habits_when_all_validate _ size tag st all
                Hpage Hsize Hall) as (l & Hl & _ & Hnth).
    exists l. split; [exact Hl|].
    now rewrite Hnth, Hlt, Hidx.
Qed.

Lemma each_matching_record_is_on_its_page_witness :
  exists l t,
    list_tasks 3 5 None None crowded = (Returned l, crowded)
    /\ nth_error l 2 = Some t
    /\ task_id t = nth_id 12.
Proof.
  destruct each_matching_record_is_on_its_page as [HT _].
  assert (Hall : exists all,
             comprehension_map Task_of_record (PyDict.values (TASKS crowded))
             = Returned all
             /\ exists t, nth_error (filter (spec_task_passes None None) all) 12
                          = Some t /\ task_id t = nth_id 12).
  { eexists. split; [reflexivity|]. eexists. split; reflexivity. }
  destruct Hall as (all & Hall & t & Ht & Hid).
  destruct (HT 5 None None crowded all 12%nat t ltac:(lia) Hall Ht)
    as (l & Hl & Hnth).
  exists l, t. split; [exact Hl|]. split; [exact Hnth | exact Hid].
Defined.

(** ** A record over time *)

(** X12. Under a clock that never goes back, serving one more request with a
    generated identifier other than [k] leaves a record stored under [k], if
    it is still stored, with the same [id] and [created_at] and with an
    [updated_at] that is not earlier than before; for tasks and habits. *)
Theorem created_at_is_kept_and_updated_at_never_goes_back :
  forall (t : datetime) (st : Store) (req : request) (now : datetime)
         (uuid4 : string) (k : string),
    reachable t st ->
    t <= now ->
    uuid4 <> k ->
    let st' := store_after (serve req now uuid4) st in
    (forall r r',
        PyDict.get k (TASKS st) = Some r ->
        PyDict.get k (TASKS st') = Some r' ->
        tr_id r' = tr_id r
        /\ tr_created_at r' = tr_created_at r
        /\ tr_updated_at r <= tr_updated_at r')
    /\
    (forall r r',
        PyDict.get k (HABITS st) = Some r ->
        PyDict.get k (HABITS st') = Some r' ->
        hr_id r' = hr_id r
        /\ hr_created_at r' = hr_created_at r
        /\ hr_updated_at r <= hr_updated_at r').
Proof.
  intros t st req now uuid4 k Hreach Hle Hfresh st'. subst st'.
  destruct (reachable_stamped_by t st Hreach) as [HT HH].
  assert (Hsame_t : forall r r',
             PyDict.get k (TASKS st) = Some r ->
             PyDict.get k (TASKS st) = Some r' ->
             tr_id r' = tr_id r /\ tr_created_at r' = tr_created_at r
             /\ tr_updated_at r <= tr_updated_at r').
  { intros r r' H1 H2. rewrite H1 in H2. injection H2 as <-.
    split; [reflexivity|]. split; [reflexivity | lia]. }
  assert (Hsame_h : forall r r',
             PyDict.get k (HABITS st) = Some r ->
             PyDict.get k (HABITS st) = Some r' ->
             hr_id r' = hr_id r /\ hr_created_at r' = hr_created_at r
             /\ hr_updated_at r <= hr_updated_at r').
  { intros r r' H1 H2. rewrite H1 in H2. injection H2 as <-.
    split; [reflexivity|]. split; [reflexivity | lia]. }
  rewrite store_after_serve.
  destruct req as [page size tag completed|body|tid|tid payload|tid
                  |page size tag|body|hid|hid payload|hid];
    rewrite ?store_after_route_list_tasks, ?store_after_get_task,
      ?store_after_route_list_habits, ?store_after_get_habit;
    try (split; assumption).
  - rewrite store_after_route_create_task.
    destruct (TaskCreate_validate body) as [payload|]; [|split; assumption].
    destruct (store_after_create_task_set payload now uuid4 st)
      as (record & t0 & -> & _). simpl. split; [|assumption].
    intros r r'. rewrite PyDictFacts.get_set_ne by assumption. apply Hsame_t.
  - rewrite store_after_update_task.
    destruct (PyDict.get tid (TASKS st)) as [record|] eqn:Hget;
      [|split; assumption].
    simpl. split; [|assumption]. intros r r'.
    destruct (string_dec tid k) as [->|Hne].
    + rewrite Hget, PyDictFacts.get_set_eq. intros [= <-] [= <-].
      destruct (task_set_updated_at_frame
                  (fold_left task_setitem (TaskUpdate_model_dump payload) record)
                  now) as (-> & -> & ->).
      destruct (task_fold_frame (TaskUpdate_model_dump payload) record)
        as (-> & -> & _).
      destruct (HT record (PyDictFacts.get_In_values _ _ _ Hget)).
      split; [reflexivity|]. split; [reflexivity | lia].
    + rewrite PyDictFacts.get_set_ne by assumption. apply Hsame_t.
  - rewrite store_after_delete_task.
    destruct (PyDict.contains tid (TASKS st)); [|split; assumption].
    simpl. split; [|assumption]. intros r r'.
    destruct (string_dec tid k) as [->|Hne].
    + rewrite PyDictFacts.get_del_eq. discriminate.
    + rewrite PyDictFacts.get_del_ne by assumption. apply Hsame_t.
  - rewrite store_after_route_create_habit.
    destruct (HabitCreate_validate body) as [payload|]; [|split; assumption].
    destruct (store_after_create_habit_set payload now uuid4 st)
      as (record & h0 & -> & _). simpl. split; [assumption|].
    intros r r'. rewrite PyDictFacts.get_set_ne by assumption. apply Hsame_h.
  - rewrite store_after_update_habit.
    destruct (PyDict.get hid (HABITS st)) as [record|] eqn:Hget;
      [|split; assumption].
    simpl. split; [assumption|]. intros r r'.
    destruct (string_dec hid k) as [->|Hne].
    + rewrite Hget, PyDictFacts.get_set_eq. intros [= <-] [= <-].
      destruct (habit_set_updated_at_frame
                  (fold_left habit_setitem (HabitUpdate_model_dump payload) record)
                  now) as (-> & -> & ->).
      destruct (habit_fold_frame (HabitUpdate_model_dump payload) record)
        as (-> & -> & _).
      destruct (HH record (PyDictFacts.get_In_values _ _ _ Hget)).
      split; [reflexivity|]. split; [reflexivity | lia].
    + rewrite PyDictFacts.get_set_ne by assumption. apply Hsame_h.
  - rewrite store_after_delete_habit.
    destruct (PyDict.contains hid (HABITS st)); [|split; assumption].
    simpl. split; [assumption|]. intros r r'.
    destruct (string_dec hid k) as [->|Hne].
    + rewrite PyDictFacts.get_del_eq. discriminate.
    + rewrite PyDictFacts.get_del_ne by assumption. apply Hsame_h.
Qed.

Lemma created_at_is_kept_and_updated_at_never_goes_back_witness :
  reachable 1001 one_of_each
  /\ (exists r r',
        PyDict.get "id-1" (TASKS one_of_each) = Some r
        /\ PyDict.get "id-1"
             (TASKS (store_after (serve (PATCH_task "id-1" mark_done) 2000 "id-5")
                       one_of_each))
           = Some r'
        /\ tr_created_at r' = tr_created_at r
        /\ tr_updated_at r <= tr_updated_at r').
Proof.
  split; [exact one_of_each_reachable|].
  destruct (created_at_is_kept_and_updated_at_never_goes_back
              1001 one_of_each (PATCH_task "id-1" mark_done) 2000 "id-5" "id-1"
              one_of_each_reachable)
    as [HT _]; [lia | discriminate |].
  do 2 eexists. split; [reflexivity|]. split; [reflexivity|].
  destruct (HT _ _ eq_refl eq_refl) as (_ & Hc & Hu).
  split; assumption.
Defined.

(** ** Listing what was created *)

Lemma Task_of_record_id r t : Task_of_record r = Returned t -> task_id t = tr_id r.
Proof.
  unfold Task_of_record.
  destruct (tr_title r), (tr_tags r), (tr_completed r); try discriminate.
  now intros [= <-].
Qed.

Lemma posts_are_appended (posts : list (TaskBody * datetime * string)) st :
  Forall (fun x => exists payload,
              TaskCreate_validate (fst (fst x)) = Returned payload) posts ->
  NoDup (map snd posts) ->
  (forall k, In k (map snd posts) -> PyDict.get k (TASKS st) = None) ->
  exists entries,
    TASKS (serve_all
             (map (fun x => (POST_tasks (fst (fst x)), snd (fst x), snd x)) posts)
             st)
    = (TASKS st ++ entries)%list
    /\ map fst entries = map snd posts
    /\ Forall (fun e => tr_id (snd e) = fst e
                        /\ exists t, Task_of_record (snd e) = Returned t)
         entries.
Proof.
  unfold serve_all. intros Hvalid. revert st.
  induction Hvalid as [|[[body now] k] posts [payload Hbody] Hposts IH];
    intros st Hnodup Hfresh; cbn [map fold_left fst snd].
  - exists []. rewrite app_nil_r. repeat split. constructor.
  - simpl in Hnodup, Hbody, Hfresh.
    inversion Hnodup as [|? ? Hnin Hnodup']; subst.
    rewrite store_after_serve, store_after_route_create_task, Hbody.
    destruct (store_after_create_task_set payload now k st)
      as (record & t & Hst & Hid & Hv).
    rewrite Hst.
    destruct (IH {| TASKS := PyDict.set k record (TASKS st);
                    HABITS := HABITS st |} Hnodup') as (entries & He & Hk & Hf).
    { intros k' Hin. simpl. rewrite PyDictFacts.get_set_ne.
      - apply Hfresh. now right.
      - intros ->. contradiction. }
    exists ((k, record) :: entries). rewrite He. simpl.
    rewrite PyDictOrder.set_fresh by (apply Hfresh; now left).
    rewrite <- app_assoc. simpl. split; [reflexivity|].
    split; [now rewrite Hk|].
    constructor; [|assumption]. simpl. eauto.
Qed.

Lemma entries_validate (entries : dict task_record) :
  Forall (fun e => tr_id (snd e) = fst e
                   /\ exists t, Task_of_record (snd e) = Returned t) entries ->
  exists all,
    comprehension_map Task_of_record (PyDict.values entries) = Returned all
    /\ map task_id all = map fst entries.
Proof.
  unfold PyDict.values.
  induction 1 as [|[k r] entries [Hid [t Ht]] Hrest (all & Hall & Hids)]; simpl.
  - exists []. split; reflexivity.
  - simpl in Hid, Ht. exists (t :: all).
    rewrite Ht, Hall. simpl. split; [reflexivity|].
    now rewrite Hids, (Task_of_record_id r t Ht), Hid.
Qed.

Lemma filter_all {A} (l : list A) : filter (fun _ => true) l = l.
Proof. induction l; simpl; congruence. Qed.

(** X13. After a run of valid task creations with pairwise different
    identifiers, served from the empty store, the first page of the unfiltered
    listing returns the created tasks in the order of their creation, cut
    after [size] of them. *)
Theorem listing_follows_creation_order :
  forall (posts : list (TaskBody * datetime * string)) (size : Z),
    Forall (fun x => exists payload,
                TaskCreate_validate (fst (fst x)) = Returned payload) posts ->
    NoDup (map snd posts) ->
    1 <= size ->
    let st :=
      serve_all
        (map (fun x => (POST_tasks (fst (fst x)), snd (fst x), snd x)) posts)
        empty_store in
    exists l,
      list_tasks 1 size None None st = (Returned l, st)
      /\ map task_id l = firstn (Z.to_nat size) (map snd posts).
Proof.
  intros posts size Hvalid Hnodup Hsize st.
  destruct (posts_are_appended posts empty_store Hvalid Hnodup)
    as (entries & He & Hk & Hf); [reflexivity|].
  simpl in He. fold st in He.
  destruct (entries_validate entries Hf) as (all & Hall & Hids).
  rewrite <- He in Hall.
  destruct (list_tasks_when_all_validate 1 size None None st all
              ltac:(lia) Hsize Hall) as (l & Hl & Hitems & _).
  exists l. split; [exact Hl|].
  rewrite Hitems.
  change (spec_task_passes None None) with (fun _ : Task => true).
  rewrite filter_all.
  replace ((1 - 1) * size) with 0 by lia.
  rewrite py_slice_window by lia.
  change (Z.to_nat 0) with 0%nat. rewrite skipn_0.
  now rewrite <- firstn_map, Hids, Hk.
Qed.

Lemma listing_follows_creation_order_witness :
  exists l,
    outcome
      (list_tasks 1 2 None None)
      (serve_all [(POST_tasks buy_milk, 1000, "a");
                  (POST_tasks (with_priority 4), 1001, "b");
                  (POST_tasks buy_milk, 1002, "c")] empty_store)
    = Returned l
    /\ map task_id l = ["a"; "b"].
Proof.
  destruct (listing_follows_creation_order
              [(buy_milk, 1000, "a"); (with_priority 4, 1001, "b");
               (buy_milk, 1002, "c")] 2)
    as (l & Hl & Hids).
  - repeat constructor; eexists; reflexivity.
  - repeat constructor; simpl; intuition discriminate.
  - lia.
  - exists l. split; [|exact Hids].
    exact (f_equal fst Hl).
Defined.

(** ** What a listing returns *)

Lemma Forall2_In_r {A B} (R : A -> B -> Prop) items out x :
  Forall2 R items out -> In x out -> exists a, In a items /\ R a x.
Proof.
  induction 1 as [|a b items out Hab Hrest IH]; simpl; [tauto|].
  intros [<-|Hin]; [eauto|]. destruct (IH Hin) as (a' & Ha' & HR). eauto.
Qed.

Lemma comprehension_if_sound {A} (p : A -> result bool) items kept x :
  comprehension_if p items = Returned kept -> In x kept ->
  In x items /\ p x = Returned true.
Proof.
  revert kept. induction items as [|a items IH]; intros kept; simpl.
  - intros [= <-] [].
  - destruct (p a) as [b|] eqn:Hp; [|discriminate].
    destruct (comprehension_if p items) as [kept'|]; [|discriminate].
    intros [= <-]. destruct b; simpl.
    + intros [<-|H]; [auto|]. destruct (IH _ eq_refl H). auto.
    + intros H. destruct (IH _ eq_refl H). auto.
Qed.

Lemma list_tasks_listed page size tag completed st l x :
  outcome (list_tasks page size tag completed) st = Returned l ->
  In x l ->
  exists r,
    In r (PyDict.values (TASKS st))
    /\ Task_of_record r = Returned x
    /\ spec_task_passes tag completed x = true.
Proof.
  unfold list_tasks; unfold_monad; simpl.
  destruct (match tag with Some _ => _ | None => _ end) as [kept|] eqn:Htag;
    simpl; [|discriminate].
  destruct (comprehension_map _ _) as [ts|] eqn:Hmap; [|discriminate].
  intros [= <-] Hin.
  apply comprehension_map_Forall2 in Hmap.
  destruct (Forall2_In_r _ _ _ _ Hmap Hin) as (r & Hr & Hv).
  apply In_py_slice in Hr.
  assert (Hkept : In r kept
                  /\ match completed with
                     | Some c => py_is (tr_completed r) c
                     | None => true
                     end = true).
  { destruct completed; [now apply filter_In in Hr | auto]. }
  destruct Hkept as [Hkept Hcompleted].
  assert (Hstored : In r (PyDict.values (TASKS st))
                    /\ match tag with
                       | Some tag => py_in tag (tr_tags r)
                       | None => Returned true
                       end = Returned true).
  { destruct tag as [tag|].
    - exact (comprehension_if_sound _ _ _ _ Htag Hkept).
    - injection Htag as <-. auto. }
  destruct Hstored as [Hstored Htagged].
  exists r. split; [assumption|]. split; [assumption|].
  destruct (Task_of_record_passes tag completed r x Hv) as [E1 E2].
  unfold spec_task_passes. rewrite E1 in Htagged. rewrite E2 in Hcompleted.
  injection Htagged as ->. now rewrite Hcompleted.
Qed.

Lemma list_habits_listed page size tag st l x :
  outcome (list_habits page size tag) st = Returned l ->
  In x l ->
  exists r,
    In r (PyDict.values (HABITS st))
    /\ Habit_of_record r = Returned x
    /\ spec_habit_passes tag x = true.
Proof.
  unfold list_habits; unfold_monad; simpl.
  destruct (match tag with Some _ => _ | None => _ end) as [kept|] eqn:Htag;
    simpl; [|discriminate].
  destruct (comprehension_map _ _) as [hs|] eqn:Hmap; [|discriminate].
  intros [= <-] Hin.
  apply comprehension_map_Forall2 in Hmap.
  destruct (Forall2_In_r _ _ _ _ Hmap Hin) as (r & Hr & Hv).
  apply In_py_slice in Hr.
  assert (Hstored : In r (PyDict.values (HABITS st))
                    /\ match tag with
                       | Some tag => py_in tag (hr_tags r)
                       | None => Returned true
                       end = Returned true).
  { destruct tag as [tag|].
    - exact (comprehension_if_sound _ _ _ _ Htag Hr).
    - injection Htag as <-. auto. }
  destruct Hstored as [Hstored Htagged].
  exists r. split; [assumption|]. split; [assumption|].
  rewrite (Habit_of_record_passes tag r x Hv) in Htagged.
  now injection Htagged.
Qed.

(** X14. Whatever the store, every record a list handler returns passes the
    filters of the request: it carries the tag asked for and, for tasks, has
    the completion flag asked for. *)
Theorem listed_records_pass_the_filters :
  (forall (page size : Z) (tag : option string) (completed : option bool)
          (st : Store) (l : list Task) (x : Task),
      outcome (list_tasks page size tag completed) st = Returned l ->
      In x l ->
      (forall tg, tag = Some tg -> In tg (task_tags x))
      /\ (forall c, completed = Some c -> task_completed x = c))
  /\
  (forall (page size : Z) (tag : option string) (st : Store)
          (l : list Habit) (x : Habit),
      outcome (list_habits page size tag) st = Returned l ->
      In x l ->
      forall tg, tag = Some tg -> In tg (habit_tags x)).
Proof.
  split.
  - intros page size tag completed st l x Hl Hin.
    destruct (list_tasks_listed _ _ _ _ _ _ _ Hl Hin) as (r & _ & _ & Hpass).
    unfold spec_task_passes in Hpass. apply andb_prop in Hpass.
    destruct Hpass as [Htag Hcompleted]. split.
    + intros tg ->. apply existsb_exists in Htag.
      destruct Htag as (tg' & Hin' & Heq). apply String.eqb_eq in Heq.
      now subst.
    + intros c ->. now apply Bool.eqb_prop in Hcompleted.
  - intros page size tag st l x Hl Hin tg ->.
    destruct (list_habits_listed _ _ _ _ _ _ Hl Hin) as (r & _ & _ & Hpass).
    unfold spec_habit_passes in Hpass. apply existsb_exists in Hpass.
    destruct Hpass as (tg' & Hin' & Heq). apply String.eqb_eq in Heq.
    now subst.
Qed.

Lemma listed_records_pass_the_filters_witness :
  exists l x,
    outcome (list_habits 1 50 (Some "health")) one_of_each = Returned l
    /\ In x l
    /\ In "health" (habit_tags x).
Proof.
  destruct listed_records_pass_the_filters as [_ HH].
  do 2 eexists. split; [reflexivity|]. split; [left; reflexivity|].
  eapply (HH 1 50 (Some "health") one_of_each); [reflexivity| |reflexivity].
  left. reflexivity.
Defined.




(** ** Repeating an update *)

Lemma task_merge_again payload r t1 :
  let r1 :=
    task_set_updated_at
      (fold_left task_setitem (TaskUpdate_model_dump payload) r) t1 in
  fold_left task_setitem (TaskUpdate_model_dump payload) r1 = r1.
Proof.
  destruct r, payload as [[|?] [|?] [|?] [|?] [|?] [|?]]; reflexivity.
Qed.

Lemma habit_merge_again payload r t1 :
  let r1 :=
    habit_set_updated_at
      (fold_left habit_setitem (HabitUpdate_model_dump payload) r) t1 in
  fold_left habit_setitem (HabitUpdate_model_dump payload) r1 = r1.
Proof.
  destruct r, payload as [[|?] [|?] [|?] [|?] [|?] [|?]]; reflexivity.
Qed.

(** X16. Sending the same update of a stored record a second time changes
    nothing but [updated_at]: the record stored after the second update is
    the one stored after the first, with [updated_at] set to the time of the
    second. *)
Theorem repeated_update_only_moves_updated_at :
  (forall (task_id : string) (record : task_record) (payload : TaskUpdate)
          (t1 t2 : datetime) (st : Store),
      PyDict.get task_id (TASKS st) = Some record ->
      let st1 := store_after (update_task task_id payload t1) st in
      let st2 := store_after (update_task task_id payload t2) st1 in
      exists r1,
        PyDict.get task_id (TASKS st1) = Some r1
        /\ PyDict.get task_id (TASKS st2) = Some (task_set_updated_at r1 t2))
  /\
  (forall (habit_id : string) (record : habit_record) (payload : HabitUpdate)
          (t1 t2 : datetime) (st : Store),
      PyDict.get habit_id (HABITS st) = Some record ->
      let st1 := store_after (update_habit habit_id payload t1) st in
      let st2 := store_after (update_habit habit_id payload t2) st1 in
      exists r1,
        PyDict.get habit_id (HABITS st1) = Some r1
        /\ PyDict.get habit_id (HABITS st2)
           = Some (habit_set_updated_at r1 t2)).
Proof.
  split.
  - intros tid record payload t1 t2 st Hget st1 st2.
    destruct (update_task_answer tid record payload t1 st Hget) as (_ & H1 & _).
    fold st1 in H1.
    destruct (update_task_answer tid _ payload t2 st1 H1) as (_ & H2 & _).
    fold st2 in H2. rewrite task_merge_again in H2.
    eexists. split; [exact H1 | exact H2].
  - intros hid record payload t1 t2 st Hget st1 st2.
    destruct (update_habit_answer hid record payload t1 st Hget) as (_ & H1 & _).
    fold st1 in H1.
    destruct (update_habit_answer hid _ payload t2 st1 H1) as (_ & H2 & _).
    fold st2 in H2. rewrite habit_merge_again in H2.
    eexists. split; [exact H1 | exact H2].
Qed.

Lemma repeated_update_only_moves_updated_at_witness :
  exists r1,
    PyDict.get "id-1"
      (TASKS (store_after (update_task "id-1" mark_done 2000) one_of_each))
    = Some r1
    /\ PyDict.get "id-1"
         (TASKS (store_after (update_task "id-1" mark_done 3000)
                   (store_after (update_task "id-1" mark_done 2000) one_of_each)))
       = Some (task_set_updated_at r1 3000).
Proof.
  destruct repeated_update_only_moves_updated_at as [HT _].
  exact (HT "id-1" _ mark_done 2000 3000 one_of_each eq_refl).
Defined.
